(** * oxylabs-sdk-go: Google Shopping targets, defaults and client construction

    A shallow embedding of

    - [ecommerce/google_shopping.go]: the four Google Shopping scrape targets
      (url, search, product, pricing), their option structs, their parameter
      checks and the payload each one submits;
    - package [internal] (defaults): the default constants and the
      [SetDefault...] helpers;
    - package [serp] (client construction): [Init] and [InitAsync].

    Go values are modelled as follows.

    - [interface{}] is the inductive [value]; the nil interface is [VNil].
    - [map[string]interface{}] is a [gmap string value]; indexing a Go map
      with an absent key yields nil, which is [index].
    - Go [int] is [Z]. The code only compares option integers with 0, it never
      does arithmetic on them, so no wrap-around is involved.
    - [time.Duration] is a [Z] counting nanoseconds.
    - A pointer to an option struct is an [option]: [None] is the nil pointer.
      The structs are passed by value in the model; the Go code writes the
      defaults through the pointer, the model returns the updated struct.
    - A function returning [error] returns [result unit]; a failed type
      assertion [x.(T)] is a run-time panic, which is the third constructor of
      [result].
    - The receiver [c] of the scrape methods and the calls made through
      [c.C.Req] live in the record [world], threaded by the monad [M]. *)

From stdpp Require Import gmap strings list fin_maps.
From Stdlib Require Import ZArith.

Set Warnings "-register-all,-clear-no-such-hyp".
#[local] Open Scope Z_scope.

(** ** Dynamic values, errors and results *)

(** Go's [interface{}], restricted to the shapes a JSON payload can hold. *)
Inductive value : Type :=
  | VNil
  | VString (s : string)
  | VInt (n : Z)
  | VBool (b : bool)
  | VList (l : list value)
  | VMap (m : gmap string value).

(** Go's [error] values. [Errorf] is [fmt.Errorf] applied to a format and
    plain arguments, [ErrorfErr] is [fmt.Errorf] applied to a format and one
    error argument (the verb, [%w] or [%v], is in the format string), and
    [errors_New] stands for the errors made by code outside these files. *)
Inductive error : Type :=
  | Errorf (format : string) (args : list value)
  | ErrorfErr (format : string) (cause : error)
  | errors_New (msg : string).

(** The run-time panic of a failed type assertion [v.(T)]. *)
Inductive panic : Type :=
  | InterfaceConversion (v : value) (T : string).

Inductive result (A : Type) : Type :=
  | Ok (a : A)
  | Err (e : error)
  | Panic (p : panic).
Arguments Ok {A} a.
Arguments Err {A} e.
Arguments Panic {A} p.

Definition result_bind {A B} (r : result A) (k : A → result B) : result B :=
  match r with
  | Ok a => k a
  | Err e => Err e
  | Panic p => Panic p
  end.

Declare Scope go_scope.
Delimit Scope go_scope with go.
Notation "'try' x <- r ; k" := (result_bind r (fun x => k))
  (at level 10, x name, r at level 100, k at level 200) : go_scope.
#[local] Open Scope go_scope.

(** [a && b] and [a || b] evaluate [b] only when [a] does not decide the
    outcome; an operand is a computation that may panic. *)
Definition and_then (a b : result bool) : result bool :=
  try x <- a; if x then b else Ok false.

Definition or_else (a b : result bool) : result bool :=
  try x <- a; if x then Ok true else b.

(** [v.(string)] and [v.(int)]. *)
Definition assert_string (v : value) : result string :=
  match v with
  | VString s => Ok s
  | _ => Panic (InterfaceConversion v "string")
  end.

Definition assert_int (v : value) : result Z :=
  match v with
  | VInt n => Ok n
  | _ => Panic (InterfaceConversion v "int")
  end.

Definition is_nil (v : value) : bool :=
  match v with
  | VNil => true
  | _ => false
  end.

(** [m[k]] on a Go map: the stored value, or nil when the key is absent. *)
Definition index (m : gmap string value) (k : string) : value :=
  default VNil (m !! k).

(** [opts[len(opts)-1]] when [len(opts) > 0] and that element is not nil,
    else the freshly allocated zero struct. *)
Definition last_or {A} (zero : A) (opts : list (option A)) : A :=
  if bool_decide (0 < length opts)%nat then
    match opts !! (length opts - 1)%nat with
    | Some (Some opt) => opt
    | _ => zero
    end
  else zero.

(** ** Package time and package context *)

Definition Duration : Type := Z.
Definition time_Second : Duration := 1000000000.

Inductive context_Context : Type :=
  | context_Background
  | context_WithCancel (parent : context_Context)
  | context_WithDeadline (parent : context_Context) (unix_nano : Z)
  | context_WithTimeout (parent : context_Context) (timeout : Duration).

(** ** Package oxylabs: named string types *)

Module oxylabs.
Definition UserAgent : Type := string.
Definition Render : Type := string.
Definition Domain : Type := string.
Definition Locale : Type := string.
Definition Source : Type := string.
Abbreviation ContextOption := (gmap string value).
End oxylabs.

(** ** The client and the world it talks to *)

Record ApiCredentials_t : Type := {
  Username : string;
  Password : string;
}.

(** [http.Client{}]: only the zero value is ever built. *)
Inductive http_Client : Type :=
  | http_Client_zero.

(** [internal.Client]; [ApiCredentials_t] is the struct behind the field
    [ApiCredentials]. *)
Record Client : Type := {
  BaseUrl : string;
  ApiCredentials : ApiCredentials_t;
  HttpClient : http_Client;
}.

Record http_Response : Type := {
  StatusCode : Z;
  Body : string;
}.

(** One call of [c.C.Req(ctx, jsonPayload, method)]. *)
Record Request (Bytes : Type) : Type := {
  req_ctx : context_Context;
  req_body : Bytes;
  req_method : string;
}.
Arguments req_ctx {Bytes} r.
Arguments req_body {Bytes} r.
Arguments req_method {Bytes} r.

(** ** What the three files import but do not define

    The declarations of package [oxylabs], the helpers [internal.ValidateUrl]
    and [internal.Client.Req], [ecommerce.GetResp] and [encoding/json] are
    outside the files embedded here. Every theorem below holds for all of
    them: they are the fields of this class. [service] is what [Req] returns
    for a request, given the client and the requests made before it. *)
Class Externals : Type := {
  UA_DESKTOP : oxylabs.UserAgent;
  DOMAIN_COM : oxylabs.Domain;
  GoogleShoppingUrl : oxylabs.Source;
  GoogleShoppingSearch : oxylabs.Source;
  GoogleShoppingProduct : oxylabs.Source;
  GoogleShoppingPricing : oxylabs.Source;
  IsUserAgentValid : oxylabs.UserAgent → bool;
  IsRenderValid : oxylabs.Render → bool;
  ValidateParseInstructions : gmap string value → result unit;
  ValidateUrl : string → string → result unit;
  Bytes : Type;
  json_Marshal : gmap string value → result Bytes;
  service : Client → list (Request Bytes) → Request Bytes →
            result http_Response;
  Resp : Type;
  GetResp : http_Response → bool → bool → result Resp;
}.

Section Runtime.
Context {env : Externals}.

(** The receiver's [*internal.Client] and the requests sent so far. *)
Record world : Type := {
  client : Client;
  sent : list (Request Bytes);
}.

Definition M (A : Type) : Type := world → result A * world.

Definition ret {A} (a : A) : M A := fun w => (Ok a, w).

Definition bind {A B} (m : M A) (k : A → M B) : M B :=
  fun w =>
    match m w with
    | (Ok a, w') => k a w'
    | (Err e, w') => (Err e, w')
    | (Panic p, w') => (Panic p, w')
    end.

Definition lift {A} (r : result A) : M A := fun w => (r, w).

(** [c.C.Req]: the call is recorded, the client is only read. *)
Definition Req (ctx : context_Context) (jsonPayload : Bytes)
    (method : string) : M http_Response :=
  fun w =>
    let r := {| req_ctx := ctx; req_body := jsonPayload;
                req_method := method |} in
    (service (client w) (sent w) r,
     {| client := client w; sent := sent w ++ [r] |}).
End Runtime.

Notation "'do' x <- m ; k" := (bind m (fun x => k))
  (at level 10, x name, m at level 100, k at level 200) : go_scope.

(** ** Package internal: defaults *)

Module internal.

Definition DefaultStartPage : Z := 1.
Definition DefaultPages : Z := 1.

Definition DefaultLimit_SERP : Z := 10.
Definition DefaultLimit_ECOMMERCE : Z := 48.

Definition SyncBaseUrl : string := "https://realtime.oxylabs.io/v1/queries".
Definition AsyncBaseUrl : string := "https://data.oxylabs.io/v1/queries".

Definition DefaultTimeout : Duration := 50 * time_Second.
Definition DefaultPollInterval : Duration := 2 * time_Second.

(** Modelled from the spec: [internal.InList] is not among the source files;
    the check it serves rejects an "unsupported sort key", so it is
    membership of [val] in [list]. *)
Definition InList (val : string) (list : list string) : bool :=
  bool_decide (val ∈ list).

(** Each setter takes a pointer and overwrites the pointee when it holds the
    zero value; here it maps the old content to the new one. *)

Definition SetDefaultStartPage (startPage : Z) : Z :=
  if bool_decide (startPage = 0) then 1 else startPage.

Definition SetDefaultPages (pages : Z) : Z :=
  if bool_decide (pages = 0) then 1 else pages.

Definition SetDefaultLimit (limit : Z) (defaultLimit : Z) : Z :=
  if bool_decide (limit = 0) then defaultLimit else limit.

Definition SetDefaultHotelOccupancy (ctx : oxylabs.ContextOption)
    : oxylabs.ContextOption :=
  if is_nil (index ctx "hotel_occupancy")
  then <["hotel_occupancy" := VInt 2]> ctx else ctx.

Definition SetDefaultSortBy (ctx : oxylabs.ContextOption)
    : oxylabs.ContextOption :=
  if is_nil (index ctx "sort_by")
  then <["sort_by" := VString "r"]> ctx else ctx.

Definition SetDefaultHttpMethod (ctx : oxylabs.ContextOption)
    : oxylabs.ContextOption :=
  if is_nil (index ctx "http_method")
  then <["http_method" := VString "get"]> ctx else ctx.

Definition SetDefaultContentEncoding (contentEncoding : string) : string :=
  if bool_decide (contentEncoding = "") then "base64" else contentEncoding.

Section WithExternals.
Context {env : Externals}.

Definition DefaultUserAgent : oxylabs.UserAgent := UA_DESKTOP.
Definition DefaultDomain : oxylabs.Domain := DOMAIN_COM.

Definition SetDefaultDomain (domain : oxylabs.Domain) : oxylabs.Domain :=
  if bool_decide (domain = "") then DOMAIN_COM else domain.

Definition SetDefaultUserAgent (userAgent : oxylabs.UserAgent)
    : oxylabs.UserAgent :=
  if bool_decide (userAgent = "") then UA_DESKTOP else userAgent.

End WithExternals.
End internal.

(** ** Package serp: client construction *)

Module serp.

Record SerpClient : Type := { C : Client }.

Definition Init (username password : string) : SerpClient :=
  {| C := {| BaseUrl := internal.SyncBaseUrl;
             ApiCredentials := {| Username := username;
                                  Password := password |};
             HttpClient := http_Client_zero |} |}.

(** The field of [SerpClientAsync] is named [C] as well in the source. *)
Record SerpClientAsync : Type := { C_async : Client }.

Definition InitAsync (username password : string) : SerpClientAsync :=
  {| C_async := {| BaseUrl := internal.AsyncBaseUrl;
                   ApiCredentials := {| Username := username;
                                        Password := password |};
                   HttpClient := http_Client_zero |} |}.

End serp.

(** ** Package ecommerce: the Google Shopping targets *)

Module ecommerce.

(** Accepted parameters for context options in google shopping. *)
Definition AcceptedSortByParameters : list string :=
  ["r"; "p"; "rv"; "pd"].

(** The tail every scrape method ends with: marshal the payload, send it with
    one POST through [c.C.Req], and hand the answer to [GetResp]. *)
Section Submit.
Context {env : Externals}.

Definition submit (ctx : context_Context) (payload : gmap string value)
    (parse customParserFlag : bool) : M Resp :=
  do jsonPayload <-
    lift (match json_Marshal payload with
          | Ok b => Ok b
          | Err err => Err (ErrorfErr "error marshalling payload: %v" err)
          | Panic p => Panic p
          end);
  do httpResp <- Req ctx jsonPayload "POST";
  lift (GetResp httpResp parse customParserFlag).

(** [if opt.ParseInstructions != nil { payload["parsing_instructions"] = ...;
    customParserFlag = true }]. The stored value is a pointer to the option's
    pointer to the map; it stands for the map it points to. *)
Definition add_parsing_instructions (payload : gmap string value)
    (ParseInstructions : option (gmap string value))
    : gmap string value * bool :=
  match ParseInstructions with
  | Some instructions =>
      (<["parsing_instructions" := VMap instructions]> payload, true)
  | None => (payload, false)
  end.

(** [if opt.ParseInstructions != nil { if err := ValidateParseInstructions(..);
    err != nil { return fmt.Errorf(.. %w, err) } }; return nil]. *)
Definition check_parse_instructions
    (ParseInstructions : option (gmap string value)) : result unit :=
  match ParseInstructions with
  | Some instructions =>
      match ValidateParseInstructions instructions with
      | Ok _ => Ok tt
      | Err err => Err (ErrorfErr "invalid parse instructions: %w" err)
      | Panic p => Panic p
      end
  | None => Ok tt
  end.

End Submit.

(** *** google_shopping (url) *)

Module Url.

Record GoogleShoppingUrlOpts : Type := {
  UserAgent : oxylabs.UserAgent;
  Render : oxylabs.Render;
  CallbackUrl : string;
  GeoLocation : string;
  Parse : bool;
  ParseInstructions : option (gmap string value);
  PollInterval : Duration;
}.

(** [&GoogleShoppingUrlOpts{}]. *)
Definition zero : GoogleShoppingUrlOpts :=
  {| UserAgent := ""; Render := ""; CallbackUrl := ""; GeoLocation := "";
     Parse := false; ParseInstructions := None; PollInterval := 0 |}.

Section WithExternals.
Context {env : Externals}.

Definition checkParameterValidity (opt : GoogleShoppingUrlOpts)
    : result unit :=
  if negb (IsUserAgentValid (UserAgent opt)) then
    Err (Errorf "invalid user agent parameter: %v" [VString (UserAgent opt)])
  else if bool_decide (Render opt ≠ "") && negb (IsRenderValid (Render opt))
  then
    Err (Errorf "invalid render parameter: %v" [VString (Render opt)])
  else check_parse_instructions (ParseInstructions opt).

(** [internal.SetDefaultUserAgent(&opt.UserAgent)]. *)
Definition set_defaults (opt : GoogleShoppingUrlOpts)
    : GoogleShoppingUrlOpts :=
  {| UserAgent := internal.SetDefaultUserAgent (UserAgent opt);
     Render := Render opt;
     CallbackUrl := CallbackUrl opt;
     GeoLocation := GeoLocation opt;
     Parse := Parse opt;
     ParseInstructions := ParseInstructions opt;
     PollInterval := PollInterval opt |}.

(** The payload literal and the optional [parsing_instructions] entry. *)
Definition payload (url : string) (opt : GoogleShoppingUrlOpts)
    : gmap string value * bool :=
  add_parsing_instructions
    {[ "source" := VString GoogleShoppingUrl;
       "url" := VString url;
       "user_agent_type" := VString (UserAgent opt);
       "render" := VString (Render opt);
       "callback_url" := VString (CallbackUrl opt);
       "geo_location" := VString (GeoLocation opt);
       "parse" := VBool (Parse opt) ]}
    (ParseInstructions opt).

Definition ScrapeGoogleShoppingUrlCtx (ctx : context_Context) (url : string)
    (opts : list (option GoogleShoppingUrlOpts)) : M Resp :=
  do _ <- lift (ValidateUrl url "shopping.google");
  let opt := last_or zero opts in
  let opt := set_defaults opt in
  do _ <- lift (checkParameterValidity opt);
  let '(payload, customParserFlag) := payload url opt in
  submit ctx payload (Parse opt) customParserFlag.

(** The deferred [cancel()] runs after the result is fixed. *)
Definition ScrapeGoogleShoppingUrl (url : string)
    (opts : list (option GoogleShoppingUrlOpts)) : M Resp :=
  let ctx := context_WithTimeout context_Background internal.DefaultTimeout in
  ScrapeGoogleShoppingUrlCtx ctx url opts.

End WithExternals.
End Url.

(** *** google_shopping_search *)

Module Search.

(** A context modifier is a function that writes into the context map it is
    given; here it maps the map before to the map after. *)
Record GoogleShoppingSearchOpts : Type := {
  Domain : oxylabs.Domain;
  StartPage : Z;
  Pages : Z;
  Locale : oxylabs.Locale;
  ResultsLanguage : string;
  GeoLocation : string;
  UserAgent : oxylabs.UserAgent;
  Render : oxylabs.Render;
  CallbackURL : string;
  Parse : bool;
  ParseInstructions : option (gmap string value);
  PollInterval : Duration;
  Context : list (oxylabs.ContextOption → oxylabs.ContextOption);
}.

(** [&GoogleShoppingSearchOpts{}]. *)
Definition zero : GoogleShoppingSearchOpts :=
  {| Domain := ""; StartPage := 0; Pages := 0; Locale := "";
     ResultsLanguage := ""; GeoLocation := ""; UserAgent := ""; Render := "";
     CallbackURL := ""; Parse := false; ParseInstructions := None;
     PollInterval := 0; Context := [] |}.

(** [context := make(oxylabs.ContextOption)] followed by the loop that
    applies every modifier of [opt.Context] in order. *)
Definition apply_modifiers
    (modifiers : list (oxylabs.ContextOption → oxylabs.ContextOption))
    : oxylabs.ContextOption :=
  foldl (fun context modifier => modifier context) ∅ modifiers.

Section WithExternals.
Context {env : Externals}.

Definition checkParameterValidity (opt : GoogleShoppingSearchOpts)
    (ctx : oxylabs.ContextOption) : result unit :=
  if negb (IsUserAgentValid (UserAgent opt)) then
    Err (Errorf "invalid user agent parameter: %v" [VString (UserAgent opt)])
  else if bool_decide (Render opt ≠ "") && negb (IsRenderValid (Render opt))
  then
    Err (Errorf "invalid render parameter: %v" [VString (Render opt)])
  else if (Pages opt <=? 0) || (StartPage opt <=? 0) then
    Err (Errorf "pages and start_page parameters must be greater than 0" [])
  else
    try bad_sort_by <-
      and_then (Ok (negb (is_nil (index ctx "sort_by"))))
        (try sort_by <- assert_string (index ctx "sort_by");
         Ok (negb (internal.InList sort_by AcceptedSortByParameters)));
    if bad_sort_by then
      Err (Errorf "invalid sort_by parameter: %v" [index ctx "sort_by"])
    else
      try bad_price <-
        and_then
          (Ok (negb (is_nil (index ctx "min_price"))
               || negb (is_nil (index ctx "max_price"))))
          (or_else
             (try min_price <- assert_int (index ctx "min_price");
              Ok (min_price <? 0))
             (try max_price <- assert_int (index ctx "max_price");
              Ok (max_price <? 0)));
      if bad_price then
        Err (Errorf "min and max prices should be greater than 0" [])
      else check_parse_instructions (ParseInstructions opt).

(** [SetDefaultPages], [SetDefaultDomain], [SetDefaultStartPage] and
    [SetDefaultUserAgent] on the fields of [opt]. *)
Definition set_defaults (opt : GoogleShoppingSearchOpts)
    : GoogleShoppingSearchOpts :=
  {| Domain := internal.SetDefaultDomain (Domain opt);
     StartPage := internal.SetDefaultStartPage (StartPage opt);
     Pages := internal.SetDefaultPages (Pages opt);
     Locale := Locale opt;
     ResultsLanguage := ResultsLanguage opt;
     GeoLocation := GeoLocation opt;
     UserAgent := internal.SetDefaultUserAgent (UserAgent opt);
     Render := Render opt;
     CallbackURL := CallbackURL opt;
     Parse := Parse opt;
     ParseInstructions := ParseInstructions opt;
     PollInterval := PollInterval opt;
     Context := Context opt |}.

(** The [context] entry of the payload: a slice of four maps. *)
Definition context_entries (context : oxylabs.ContextOption) : list value :=
  [ VMap {[ "key" := VString "nfpr"; "value" := index context "nfpr" ]};
    VMap {[ "key" := VString "sort_by";
            "value" := index context "sort_by" ]};
    VMap {[ "key" := VString "min_price";
            "value" := index context "min_price" ]};
    VMap {[ "key" := VString "max_price";
            "value" := index context "max_price" ]} ].

(** The payload literal and the optional [parsing_instructions] entry. *)
Definition payload (query : string) (opt : GoogleShoppingSearchOpts)
    (context : oxylabs.ContextOption) : gmap string value * bool :=
  add_parsing_instructions
    {[ "source" := VString GoogleShoppingSearch;
       "domain" := VString (Domain opt);
       "query" := VString query;
       "start_page" := VInt (StartPage opt);
       "pages" := VInt (Pages opt);
       "locale" := VString (Locale opt);
       "results_language" := VString (ResultsLanguage opt);
       "geo_location" := VString (GeoLocation opt);
       "user_agent_type" := VString (UserAgent opt);
       "render" := VString (Render opt);
       "callback_url" := VString (CallbackURL opt);
       "parse" := VBool (Parse opt);
       "context" := VList (context_entries context) ]}
    (ParseInstructions opt).

Definition ScrapeGoogleShoppingSearchCtx (ctx : context_Context)
    (query : string) (opts : list (option GoogleShoppingSearchOpts))
    : M Resp :=
  let opt := last_or zero opts in
  let context := apply_modifiers (Context opt) in
  let context := internal.SetDefaultSortBy context in
  let opt := set_defaults opt in
  do _ <- lift (checkParameterValidity opt context);
  let '(payload, customParserFlag) := payload query opt context in
  submit ctx payload (Parse opt) customParserFlag.

(** The deferred [cancel()] runs after the result is fixed. *)
Definition ScrapeGoogleShoppingSearch (query : string)
    (opts : list (option GoogleShoppingSearchOpts)) : M Resp :=
  let ctx := context_WithTimeout context_Background internal.DefaultTimeout in
  ScrapeGoogleShoppingSearchCtx ctx query opts.

End WithExternals.
End Search.

(** *** google_shopping_product *)

Module Product.

Record GoogleShoppingProductOpts : Type := {
  Domain : oxylabs.Domain;
  Locale : oxylabs.Locale;
  ResultsLanguage : string;
  GeoLocation : string;
  UserAgent : oxylabs.UserAgent;
  Render : oxylabs.Render;
  CallbackURL : string;
  Parse : bool;
  ParseInstructions : option (gmap string value);
  PollInterval : Duration;
}.

(** [&GoogleShoppingProductOpts{}]. *)
Definition zero : GoogleShoppingProductOpts :=
  {| Domain := ""; Locale := ""; ResultsLanguage := ""; GeoLocation := "";
     UserAgent := ""; Render := ""; CallbackURL := ""; Parse := false;
     ParseInstructions := None; PollInterval := 0 |}.

Section WithExternals.
Context {env : Externals}.

Definition checkParameterValidity (opt : GoogleShoppingProductOpts)
    : result unit :=
  if negb (IsUserAgentValid (UserAgent opt)) then
    Err (Errorf "invalid user agent parameter: %v" [VString (UserAgent opt)])
  else if bool_decide (Render opt ≠ "") && negb (IsRenderValid (Render opt))
  then
    Err (Errorf "invalid render parameter: %v" [VString (Render opt)])
  else check_parse_instructions (ParseInstructions opt).

(** [SetDefaultDomain] and [SetDefaultUserAgent] on the fields of [opt]. *)
Definition set_defaults (opt : GoogleShoppingProductOpts)
    : GoogleShoppingProductOpts :=
  {| Domain := internal.SetDefaultDomain (Domain opt);
     Locale := Locale opt;
     ResultsLanguage := ResultsLanguage opt;
     GeoLocation := GeoLocation opt;
     UserAgent := internal.SetDefaultUserAgent (UserAgent opt);
     Render := Render opt;
     CallbackURL := CallbackURL opt;
     Parse := Parse opt;
     ParseInstructions := ParseInstructions opt;
     PollInterval := PollInterval opt |}.

Definition payload (query : string) (opt : GoogleShoppingProductOpts)
    : gmap string value * bool :=
  add_parsing_instructions
    {[ "source" := VString GoogleShoppingProduct;
       "domain" := VString (Domain opt);
       "query" := VString query;
       "locale" := VString (Locale opt);
       "results_language" := VString (ResultsLanguage opt);
       "geo_location" := VString (GeoLocation opt);
       "user_agent_type" := VString (UserAgent opt);
       "render" := VString (Render opt);
       "callback_url" := VString (CallbackURL opt);
       "parse" := VBool (Parse opt) ]}
    (ParseInstructions opt).

Definition ScrapeGoogleShoppingProductCtx (ctx : context_Context)
    (query : string) (opts : list (option GoogleShoppingProductOpts))
    : M Resp :=
  let opt := last_or zero opts in
  let opt := set_defaults opt in
  do _ <- lift (checkParameterValidity opt);
  let '(payload, customParserFlag) := payload query opt in
  submit ctx payload (Parse opt) customParserFlag.

(** The deferred [cancel()] runs after the result is fixed. *)
Definition ScrapeGoogleShoppingProduct (query : string)
    (opts : list (option GoogleShoppingProductOpts)) : M Resp :=
  let ctx := context_WithTimeout context_Background internal.DefaultTimeout in
  ScrapeGoogleShoppingProductCtx ctx query opts.

End WithExternals.
End Product.

(** *** google_shopping_pricing *)

Module Pricing.

Record GoogleShoppingPricingOpts : Type := {
  Domain : oxylabs.Domain;
  StartPage : Z;
  Pages : Z;
  Locale : oxylabs.Locale;
  ResultsLanguage : string;
  GeoLocation : string;
  UserAgent : oxylabs.UserAgent;
  Render : oxylabs.Render;
  CallbackURL : string;
  Parse : bool;
  ParseInstructions : option (gmap string value);
  PollInterval : Duration;
}.

(** [&GoogleShoppingPricingOpts{}]. *)
Definition zero : GoogleShoppingPricingOpts :=
  {| Domain := ""; StartPage := 0; Pages := 0; Locale := "";
     ResultsLanguage := ""; GeoLocation := ""; UserAgent := ""; Render := "";
     CallbackURL := ""; Parse := false; ParseInstructions := None;
     PollInterval := 0 |}.

Section WithExternals.
Context {env : Externals}.

Definition checkParameterValidity (opt : GoogleShoppingPricingOpts)
    : result unit :=
  if negb (IsUserAgentValid (UserAgent opt)) then
    Err (Errorf "invalid user agent parameter: %v" [VString (UserAgent opt)])
  else if bool_decide (Render opt ≠ "") && negb (IsRenderValid (Render opt))
  then
    Err (Errorf "invalid render parameter: %v" [VString (Render opt)])
  else if (Pages opt <=? 0) || (StartPage opt <=? 0) then
    Err (Errorf "pages and start_page parameters must be greater than 0" [])
  else check_parse_instructions (ParseInstructions opt).

(** [SetDefaultPages], [SetDefaultDomain], [SetDefaultStartPage] and
    [SetDefaultUserAgent] on the fields of [opt]. *)
Definition set_defaults (opt : GoogleShoppingPricingOpts)
    : GoogleShoppingPricingOpts :=
  {| Domain := internal.SetDefaultDomain (Domain opt);
     StartPage := internal.SetDefaultStartPage (StartPage opt);
     Pages := internal.SetDefaultPages (Pages opt);
     Locale := Locale opt;
     ResultsLanguage := ResultsLanguage opt;
     GeoLocation := GeoLocation opt;
     UserAgent := internal.SetDefaultUserAgent (UserAgent opt);
     Render := Render opt;
     CallbackURL := CallbackURL opt;
     Parse := Parse opt;
     ParseInstructions := ParseInstructions opt;
     PollInterval := PollInterval opt |}.

Definition payload (query : string) (opt : GoogleShoppingPricingOpts)
    : gmap string value * bool :=
  add_parsing_instructions
    {[ "source" := VString GoogleShoppingPricing;
       "domain" := VString (Domain opt);
       "query" := VString query;
       "start_page" := VInt (StartPage opt);
       "pages" := VInt (Pages opt);
       "locale" := VString (Locale opt);
       "results_language" := VString (ResultsLanguage opt);
       "geo_location" := VString (GeoLocation opt);
       "user_agent_type" := VString (UserAgent opt);
       "render" := VString (Render opt);
       "callback_url" := VString (CallbackURL opt);
       "parse" := VBool (Parse opt) ]}
    (ParseInstructions opt).

Definition ScrapeGoogleShoppingPricingCtx (ctx : context_Context)
    (query : string) (opts : list (option GoogleShoppingPricingOpts))
    : M Resp :=
  let opt := last_or zero opts in
  let opt := set_defaults opt in
  do _ <- lift (checkParameterValidity opt);
  let '(payload, customParserFlag) := payload query opt in
  submit ctx payload (Parse opt) customParserFlag.

(** The deferred [cancel()] runs after the result is fixed. *)
Definition ScrapeGoogleShoppingPricing (query : string)
    (opts : list (option GoogleShoppingPricingOpts)) : M Resp :=
  let ctx := context_WithTimeout context_Background internal.DefaultTimeout in
  ScrapeGoogleShoppingPricingCtx ctx query opts.

End WithExternals.
End Pricing.

End ecommerce.

Import ecommerce.

(** ** A concrete environment

    The theorems below hold for every instance of [Externals]. To run the code
    on concrete inputs one instance is fixed here. *)
Module sample.

(** Modelled from the spec: package [oxylabs] is not among the source files.
    The spec speaks of user agent classes with a fixed default class and of
    render modes without listing them; these are the names taken here. *)
Definition user_agents : list string :=
  ["desktop"; "desktop_chrome"; "desktop_edge"; "desktop_firefox";
   "desktop_opera"; "desktop_safari"; "mobile"; "mobile_android";
   "mobile_ios"; "tablet"; "tablet_android"; "tablet_ios"].

Definition renders : list string := ["html"; "png"].

(** Modelled from the spec: [internal.ValidateUrl] is not among the source
    files; an "invalid target URL" is a validation error, and here a URL is
    valid when it mentions the expected host. *)
Definition validate_url (url host : string) : result unit :=
  match String.index 0 host url with
  | Some _ => Ok tt
  | None => Err (errors_New "url does not belong to the expected host")
  end.

(** Modelled from the spec: the declarations of package [oxylabs], the helper
    [internal.Client.Req], [ecommerce.GetResp] and the JSON encoder are not
    among the source files. The default user agent class is [desktop] and the
    default domain [com]; a user agent or render mode is valid when it is one
    of the listed names, so the empty string is neither; every instruction
    map is accepted; the encoded payload is the payload itself; the service
    answers every request with status 200; the response object records what
    [GetResp] was given. *)
#[export] Instance externals : Externals := {|
  UA_DESKTOP := "desktop";
  DOMAIN_COM := "com";
  GoogleShoppingUrl := "google_shopping";
  GoogleShoppingSearch := "google_shopping_search";
  GoogleShoppingProduct := "google_shopping_product";
  GoogleShoppingPricing := "google_shopping_pricing";
  IsUserAgentValid ua := bool_decide (ua ∈ user_agents);
  IsRenderValid render := bool_decide (render ∈ renders);
  ValidateParseInstructions _ := Ok tt;
  ValidateUrl := validate_url;
  Bytes := gmap string value;
  json_Marshal payload := Ok payload;
  service _ _ _ := Ok {| StatusCode := 200; Body := "" |};
  Resp := http_Response * bool * bool;
  GetResp httpResp parse customParserFlag :=
    Ok (httpResp, parse, customParserFlag);
|}.

Definition client0 : Client := serp.C (serp.Init "user" "secret").

(** Search options: nothing set but the context modifiers. *)
Definition search_with
    (modifiers : list (oxylabs.ContextOption → oxylabs.ContextOption))
    : Search.GoogleShoppingSearchOpts :=
  {| Search.Domain := ""; Search.StartPage := 0; Search.Pages := 0;
     Search.Locale := ""; Search.ResultsLanguage := "";
     Search.GeoLocation := ""; Search.UserAgent := ""; Search.Render := "";
     Search.CallbackURL := ""; Search.Parse := false;
     Search.ParseInstructions := None; Search.PollInterval := 0;
     Search.Context := modifiers |}.

(** Search options: nothing set but the user agent. *)
Definition search_as (userAgent : oxylabs.UserAgent)
    : Search.GoogleShoppingSearchOpts :=
  {| Search.Domain := ""; Search.StartPage := 0; Search.Pages := 0;
     Search.Locale := ""; Search.ResultsLanguage := "";
     Search.GeoLocation := ""; Search.UserAgent := userAgent;
     Search.Render := ""; Search.CallbackURL := ""; Search.Parse := false;
     Search.ParseInstructions := None; Search.PollInterval := 0;
     Search.Context := [] |}.

(** Pricing options: nothing set but start page and pages. *)
Definition pricing_pages (startPage pages : Z)
    : Pricing.GoogleShoppingPricingOpts :=
  {| Pricing.Domain := ""; Pricing.StartPage := startPage;
     Pricing.Pages := pages; Pricing.Locale := "";
     Pricing.ResultsLanguage := ""; Pricing.GeoLocation := "";
     Pricing.UserAgent := ""; Pricing.Render := "";
     Pricing.CallbackURL := ""; Pricing.Parse := false;
     Pricing.ParseInstructions := None; Pricing.PollInterval := 0 |}.

(** A context modifier that stores [v] under [key]. *)
Definition set_key (key : string) (v : value)
    : oxylabs.ContextOption → oxylabs.ContextOption :=
  fun context => <[key := v]> context.

Definition world0 : world := {| client := client0; sent := [] |}.

End sample.

(** ** Vocabulary of the statements *)

Section Vocabulary.
Context {env : Externals}.

(** [do _ <- lift check; k], written out: stop at a failed check without
    touching the world, else continue with [k]. *)
Definition after_check {A} (check : result unit) (k : M A) : M A :=
  fun w =>
    match check with
    | Ok _ => k w
    | Err e => (Err e, w)
    | Panic p => (Panic p, w)
    end.

(** The request [submit] sends for a marshalled payload. *)
Definition post (ctx : context_Context) (body : Bytes) : Request Bytes :=
  {| req_ctx := ctx; req_body := body; req_method := "POST" |}.

(** An option set of the search target that holds an invalid enumerated
    value, read literally: a user agent [IsUserAgentValid] does not accept, a
    non-empty render mode [IsRenderValid] does not accept, or a [sort_by]
    context value that is none of [AcceptedSortByParameters]. *)
Definition invalid_enumerated (opt : Search.GoogleShoppingSearchOpts)
    : Prop :=
  IsUserAgentValid (Search.UserAgent opt) = false ∨
  (Search.Render opt ≠ "" ∧ IsRenderValid (Search.Render opt) = false) ∨
  (let sort_by :=
     index (Search.apply_modifiers (Search.Context opt)) "sort_by" in
   sort_by ≠ VNil ∧
   ∀ s, s ∈ AcceptedSortByParameters → sort_by ≠ VString s).

(** The same, with the user agent read after the default has replaced the
    empty one, and the [sort_by] value a string. *)
Definition rejected_enumerated (opt : Search.GoogleShoppingSearchOpts)
    : Prop :=
  IsUserAgentValid (internal.SetDefaultUserAgent (Search.UserAgent opt))
    = false ∨
  (Search.Render opt ≠ "" ∧ IsRenderValid (Search.Render opt) = false) ∨
  (∃ s, index (Search.apply_modifiers (Search.Context opt)) "sort_by"
          = VString s ∧
        s ∉ AcceptedSortByParameters).

End Vocabulary.

(** The errors [checkParameterValidity] returns, recognised by the format
    they are built from. *)
Definition validation_formats : list string :=
  ["invalid user agent parameter: %v";
   "invalid render parameter: %v";
   "pages and start_page parameters must be greater than 0";
   "invalid sort_by parameter: %v";
   "min and max prices should be greater than 0"].

(** The error of the check [opt.Pages <= 0 || opt.StartPage <= 0]. *)
Definition pages_error : error :=
  Errorf "pages and start_page parameters must be greater than 0" [].

Definition validation_error (e : error) : Prop :=
  match e with
  | Errorf format _ => format ∈ validation_formats
  | ErrorfErr format _ => format = "invalid parse instructions: %w"
  | errors_New _ => False
  end.

(** ** Environments in which a step fails

    Modelled from the spec: as [sample.externals], with switches: when
    [instructions_ok] is off the instruction validator rejects every map, when
    [marshal_ok] is off the encoder fails, when [service_ok] is off the
    request fails, when [resp_ok] is off [GetResp] fails. *)
Module faulty.

Definition externals (instructions_ok marshal_ok service_ok resp_ok : bool)
    : Externals := {|
  UA_DESKTOP := "desktop";
  DOMAIN_COM := "com";
  GoogleShoppingUrl := "google_shopping";
  GoogleShoppingSearch := "google_shopping_search";
  GoogleShoppingProduct := "google_shopping_product";
  GoogleShoppingPricing := "google_shopping_pricing";
  IsUserAgentValid ua := bool_decide (ua ∈ sample.user_agents);
  IsRenderValid render := bool_decide (render ∈ sample.renders);
  ValidateParseInstructions _ :=
    if instructions_ok then Ok tt
    else Err (errors_New "unsupported extraction operator");
  ValidateUrl := sample.validate_url;
  Bytes := gmap string value;
  json_Marshal payload :=
    if marshal_ok then Ok payload
    else Err (errors_New "json: unsupported value");
  service _ _ _ :=
    if service_ok then Ok {| StatusCode := 200; Body := "" |}
    else Err (errors_New "connection refused");
  Resp := http_Response * bool * bool;
  GetResp httpResp parse customParserFlag :=
    if resp_ok then Ok (httpResp, parse, customParserFlag)
    else Err (errors_New "unexpected end of JSON input");
|}.

Definition world0 (instructions_ok marshal_ok service_ok resp_ok : bool)
    : @world (externals instructions_ok marshal_ok service_ok resp_ok) :=
  {| client := sample.client0; sent := [] |}.

(** Product options: nothing set but the parse instructions. *)
Definition product_parsing (instructions : gmap string value)
    : Product.GoogleShoppingProductOpts :=
  {| Product.Domain := ""; Product.Locale := "";
     Product.ResultsLanguage := ""; Product.GeoLocation := "";
     Product.UserAgent := ""; Product.Render := "";
     Product.CallbackURL := ""; Product.Parse := true;
     Product.ParseInstructions := Some instructions;
     Product.PollInterval := 0 |}.

End faulty.

(** ** More vocabulary *)

Section MoreVocabulary.
Context {env : Externals}.

(** The world after one more POST. *)
Definition after_post (w : world) (ctx : context_Context) (body : Bytes)
    : world :=
  {| client := client w; sent := sent w ++ [post ctx body] |}.

(** What [submit] returns once the payload is marshalled to [body]: the
    error of [Req] as it is, else what [GetResp] makes of the answer. *)
Definition answer (w : world) (ctx : context_Context) (body : Bytes)
    (parse customParserFlag : bool) : result Resp :=
  try httpResp <- service (client w) (sent w) (post ctx body);
  GetResp httpResp parse customParserFlag.

(** The parse instructions are absent or accepted by the validator. *)
Definition instructions_accepted (instructions : option (gmap string value))
    : Prop :=
  match instructions with
  | Some m => ValidateParseInstructions m = Ok tt
  | None => True
  end.

(** Render mode empty or valid; both page numbers positive. *)
Definition render_accepted (render : oxylabs.Render) : Prop :=
  render = "" ∨ IsRenderValid render = true.

(** The [sort_by] value is nil or one of the accepted strings. *)
Definition sort_by_accepted (v : value) : Prop :=
  v = VNil ∨ ∃ s, v = VString s ∧ s ∈ AcceptedSortByParameters.

(** Both price bounds are nil, or both are non-negative integers. *)
Definition prices_accepted (min_price max_price : value) : Prop :=
  (min_price = VNil ∧ max_price = VNil) ∨
  ∃ a b, min_price = VInt a ∧ max_price = VInt b ∧ 0 ≤ a ∧ 0 ≤ b.

(** The checks that precede the price condition of the search check pass. *)
Definition reaches_price_check (opt : Search.GoogleShoppingSearchOpts)
    (context : oxylabs.ContextOption) : Prop :=
  IsUserAgentValid (Search.UserAgent opt) = true ∧
  render_accepted (Search.Render opt) ∧
  0 < Search.Pages opt ∧ 0 < Search.StartPage opt ∧
  sort_by_accepted (index context "sort_by").



(** The sort condition of the search check, on its own. *)
Definition sort_condition (context : oxylabs.ContextOption) : result bool :=
  and_then (Ok (negb (is_nil (index context "sort_by"))))
    (try sort_by <- assert_string (index context "sort_by");
     Ok (negb (internal.InList sort_by AcceptedSortByParameters))).

(** The price condition of the search check, on its own. *)
Definition price_condition (context : oxylabs.ContextOption) : result bool :=
  and_then
    (Ok (negb (is_nil (index context "min_price"))
         || negb (is_nil (index context "max_price"))))
    (or_else
       (try min_price <- assert_int (index context "min_price");
        Ok (min_price <? 0))
       (try max_price <- assert_int (index context "max_price");
        Ok (max_price <? 0))).

End MoreVocabulary.

(** * Verification *)

(** ** The effective option set *)

Section LastOr.
Context {A : Type} (zero : A).

Lemma last_or_nil : last_or zero [] = zero.
Proof. reflexivity. Qed.

Lemma last_or_snoc (earlier : list (option A)) (last : option A) :
  last_or zero (earlier ++ [last]) = default zero last.
Proof.
  unfold last_or. rewrite length_app. simpl.
  rewrite bool_decide_eq_true_2 by lia.
  replace (length earlier + 1 - 1)%nat with (length earlier + 0)%nat by lia.
  rewrite lookup_app_r by lia.
  replace (length earlier + 0 - length earlier)%nat with 0%nat by lia.
  simpl. by destruct last.
Qed.

Lemma last_or_singleton (opt : A) : last_or zero [Some opt] = opt.
Proof. reflexivity. Qed.

End LastOr.

(** ** The monad and the common tail *)

Section Monad.
Context {env : Externals}.

Lemma bind_lift_Ok {A B} (a : A) (k : A → M B) (w : world) :
  bind (lift (Ok a)) k w = k a w.
Proof. reflexivity. Qed.

Lemma bind_lift_Err {A B} (e : error) (k : A → M B) (w : world) :
  bind (lift (Err e)) k w = (Err e, w).
Proof. reflexivity. Qed.

Lemma bind_lift_Panic {A B} (p : panic) (k : A → M B) (w : world) :
  bind (lift (Panic p)) k w = (Panic p, w).
Proof. reflexivity. Qed.

(** A run of [submit] leaves the client as it was. It sends nothing when the
    payload cannot be marshalled, and otherwise exactly one POST that carries
    the marshalled payload under the caller's context. *)
Lemma submit_client ctx payload parse flag (w : world) :
  client (submit ctx payload parse flag w).2 = client w.
Proof.
  unfold submit, bind, lift, Req. simpl.
  destruct (json_Marshal payload); simpl; try done.
  destruct (service _ _ _); done.
Qed.

Lemma submit_sent ctx payload parse flag (w : world) :
  sent (submit ctx payload parse flag w).2 =
    match json_Marshal payload with
    | Ok body => sent w ++ [post ctx body]
    | _ => sent w
    end.
Proof.
  unfold submit, bind, lift, Req, post. simpl.
  destruct (json_Marshal payload); simpl; try done.
  destruct (service _ _ _); done.
Qed.

(** Hence a checked submission sends at most one request, and a request it
    sends is a POST under the context it was given. *)
Lemma checked_submit_sent check ctx payload parse flag (w : world) :
  let w' := (after_check check (submit ctx payload parse flag) w).2 in
  sent w' = sent w ∨ ∃ body, sent w' = sent w ++ [post ctx body].
Proof.
  unfold after_check. destruct check; simpl; auto.
  rewrite submit_sent. destruct (json_Marshal payload); eauto.
Qed.

End Monad.

(** ** How each scrape method runs

    A method stops at the first failed check without touching the world, and
    otherwise hands the payload it built to [submit]. *)

Section Runs.
Context {env : Externals}.

Lemma Url_run ctx url opts (w : world) :
  let opt := Url.set_defaults (last_or Url.zero opts) in
  Url.ScrapeGoogleShoppingUrlCtx ctx url opts w =
    after_check (ValidateUrl url "shopping.google")
      (after_check (Url.checkParameterValidity opt)
         (submit ctx (Url.payload url opt).1 (Url.Parse opt)
            (Url.payload url opt).2)) w.
Proof.
  unfold Url.ScrapeGoogleShoppingUrlCtx, after_check, bind, lift. simpl.
  destruct (ValidateUrl _ _); try done.
  destruct (Url.checkParameterValidity _); try done.
  by destruct (Url.payload _ _).
Qed.

Lemma Search_run ctx query opts (w : world) :
  let opt := Search.set_defaults (last_or Search.zero opts) in
  let context :=
    internal.SetDefaultSortBy
      (Search.apply_modifiers (Search.Context (last_or Search.zero opts))) in
  Search.ScrapeGoogleShoppingSearchCtx ctx query opts w =
    after_check (Search.checkParameterValidity opt context)
      (submit ctx (Search.payload query opt context).1 (Search.Parse opt)
         (Search.payload query opt context).2) w.
Proof.
  unfold Search.ScrapeGoogleShoppingSearchCtx, after_check, bind, lift. simpl.
  destruct (Search.checkParameterValidity _ _); try done.
  by destruct (Search.payload _ _ _).
Qed.

Lemma Product_run ctx query opts (w : world) :
  let opt := Product.set_defaults (last_or Product.zero opts) in
  Product.ScrapeGoogleShoppingProductCtx ctx query opts w =
    after_check (Product.checkParameterValidity opt)
      (submit ctx (Product.payload query opt).1 (Product.Parse opt)
         (Product.payload query opt).2) w.
Proof.
  unfold Product.ScrapeGoogleShoppingProductCtx, after_check, bind, lift.
  simpl. destruct (Product.checkParameterValidity _); try done.
  by destruct (Product.payload _ _).
Qed.

Lemma Pricing_run ctx query opts (w : world) :
  let opt := Pricing.set_defaults (last_or Pricing.zero opts) in
  Pricing.ScrapeGoogleShoppingPricingCtx ctx query opts w =
    after_check (Pricing.checkParameterValidity opt)
      (submit ctx (Pricing.payload query opt).1 (Pricing.Parse opt)
         (Pricing.payload query opt).2) w.
Proof.
  unfold Pricing.ScrapeGoogleShoppingPricingCtx, after_check, bind, lift.
  simpl. destruct (Pricing.checkParameterValidity _); try done.
  by destruct (Pricing.payload _ _).
Qed.

Lemma after_check_client {A} check (k : M A) (w : world) :
  (∀ w', client (k w').2 = client w') →
  client (after_check check k w).2 = client w.
Proof. intros Hk. unfold after_check. destruct check; simpl; auto. Qed.

End Runs.

(** ** Variadic options *)

Section Variadic.
Context {env : Externals}.

(** C8. Of the variadic [opts] only the last element is consulted: a call
    whose last element is a non-nil option set runs exactly as the call given
    that option set alone, whatever precedes it; a call with no options, or
    whose last element is nil, runs exactly as the call given the zero-valued
    option struct. This holds for the four scrape methods. *)
Theorem C8_only_last_option_consulted ctx target :
  (∀ earlier opt,
     Url.ScrapeGoogleShoppingUrlCtx ctx target (earlier ++ [Some opt]) =
     Url.ScrapeGoogleShoppingUrlCtx ctx target [Some opt]) ∧
  (∀ earlier,
     Url.ScrapeGoogleShoppingUrlCtx ctx target (earlier ++ [None]) =
     Url.ScrapeGoogleShoppingUrlCtx ctx target [Some Url.zero]) ∧
  Url.ScrapeGoogleShoppingUrlCtx ctx target [] =
    Url.ScrapeGoogleShoppingUrlCtx ctx target [Some Url.zero] ∧
  (∀ earlier opt,
     Search.ScrapeGoogleShoppingSearchCtx ctx target (earlier ++ [Some opt]) =
     Search.ScrapeGoogleShoppingSearchCtx ctx target [Some opt]) ∧
  (∀ earlier,
     Search.ScrapeGoogleShoppingSearchCtx ctx target (earlier ++ [None]) =
     Search.ScrapeGoogleShoppingSearchCtx ctx target [Some Search.zero]) ∧
  Search.ScrapeGoogleShoppingSearchCtx ctx target [] =
    Search.ScrapeGoogleShoppingSearchCtx ctx target [Some Search.zero] ∧
  (∀ earlier opt,
     Product.ScrapeGoogleShoppingProductCtx ctx target
       (earlier ++ [Some opt]) =
     Product.ScrapeGoogleShoppingProductCtx ctx target [Some opt]) ∧
  (∀ earlier,
     Product.ScrapeGoogleShoppingProductCtx ctx target (earlier ++ [None]) =
     Product.ScrapeGoogleShoppingProductCtx ctx target [Some Product.zero]) ∧
  Product.ScrapeGoogleShoppingProductCtx ctx target [] =
    Product.ScrapeGoogleShoppingProductCtx ctx target [Some Product.zero] ∧
  (∀ earlier opt,
     Pricing.ScrapeGoogleShoppingPricingCtx ctx target
       (earlier ++ [Some opt]) =
     Pricing.ScrapeGoogleShoppingPricingCtx ctx target [Some opt]) ∧
  (∀ earlier,
     Pricing.ScrapeGoogleShoppingPricingCtx ctx target (earlier ++ [None]) =
     Pricing.ScrapeGoogleShoppingPricingCtx ctx target [Some Pricing.zero]) ∧
  Pricing.ScrapeGoogleShoppingPricingCtx ctx target [] =
    Pricing.ScrapeGoogleShoppingPricingCtx ctx target [Some Pricing.zero].
Proof.
  unfold Url.ScrapeGoogleShoppingUrlCtx,
    Search.ScrapeGoogleShoppingSearchCtx,
    Product.ScrapeGoogleShoppingProductCtx,
    Pricing.ScrapeGoogleShoppingPricingCtx.
  repeat split; intros;
    rewrite ?last_or_snoc, ?last_or_nil, ?last_or_singleton; reflexivity.
Qed.

End Variadic.

(** ** Client construction and the default deadline *)

Section Construction.
Context {env : Externals}.

(** C6. [Init] builds a client on the synchronous endpoint and [InitAsync]
    one on the asynchronous endpoint; both store the given username and
    password in [ApiCredentials] and have the same shape, differing in the
    base URL only; no scrape method changes the client it runs on. *)
Theorem C6_client_construction (username password : string) :
  BaseUrl (serp.C (serp.Init username password)) =
    "https://realtime.oxylabs.io/v1/queries" ∧
  BaseUrl (serp.C_async (serp.InitAsync username password)) =
    "https://data.oxylabs.io/v1/queries" ∧
  ApiCredentials (serp.C (serp.Init username password)) =
    {| Username := username; Password := password |} ∧
  ApiCredentials (serp.C_async (serp.InitAsync username password)) =
    {| Username := username; Password := password |} ∧
  serp.C_async (serp.InitAsync username password) =
    {| BaseUrl := internal.AsyncBaseUrl;
       ApiCredentials :=
         ApiCredentials (serp.C (serp.Init username password));
       HttpClient := HttpClient (serp.C (serp.Init username password)) |} ∧
  (∀ ctx url opts (w : world),
     client (Url.ScrapeGoogleShoppingUrlCtx ctx url opts w).2 = client w) ∧
  (∀ ctx query opts (w : world),
     client (Search.ScrapeGoogleShoppingSearchCtx ctx query opts w).2 =
       client w) ∧
  (∀ ctx query opts (w : world),
     client (Product.ScrapeGoogleShoppingProductCtx ctx query opts w).2 =
       client w) ∧
  (∀ ctx query opts (w : world),
     client (Pricing.ScrapeGoogleShoppingPricingCtx ctx query opts w).2 =
       client w).
Proof.
  repeat split; intros.
  - rewrite Url_run. simpl. apply after_check_client. intros w'.
    apply after_check_client. intros w''. apply submit_client.
  - rewrite Search_run. simpl. apply after_check_client. intros w'.
    apply submit_client.
  - rewrite Product_run. simpl. apply after_check_client. intros w'.
    apply submit_client.
  - rewrite Pricing_run. simpl. apply after_check_client. intros w'.
    apply submit_client.
Qed.

(** C7. The default poll interval is 2 seconds and the default deadline 50
    seconds; each scrape method without a context argument is its [Ctx]
    variant run under [context.WithTimeout(context.Background(), 50s)], so a
    request it sends is sent under that context. *)
Theorem C7_default_deadline :
  let deadline := context_WithTimeout context_Background (50 * time_Second) in
  internal.DefaultPollInterval = 2 * time_Second ∧
  internal.DefaultTimeout = 50 * time_Second ∧
  (∀ url opts,
     Url.ScrapeGoogleShoppingUrl url opts =
     Url.ScrapeGoogleShoppingUrlCtx deadline url opts) ∧
  (∀ query opts,
     Search.ScrapeGoogleShoppingSearch query opts =
     Search.ScrapeGoogleShoppingSearchCtx deadline query opts) ∧
  (∀ query opts,
     Product.ScrapeGoogleShoppingProduct query opts =
     Product.ScrapeGoogleShoppingProductCtx deadline query opts) ∧
  (∀ query opts,
     Pricing.ScrapeGoogleShoppingPricing query opts =
     Pricing.ScrapeGoogleShoppingPricingCtx deadline query opts) ∧
  (∀ url opts (w : world),
     let w' := (Url.ScrapeGoogleShoppingUrl url opts w).2 in
     sent w' = sent w ∨ ∃ body, sent w' = sent w ++ [post deadline body]) ∧
  (∀ query opts (w : world),
     let w' := (Search.ScrapeGoogleShoppingSearch query opts w).2 in
     sent w' = sent w ∨ ∃ body, sent w' = sent w ++ [post deadline body]) ∧
  (∀ query opts (w : world),
     let w' := (Product.ScrapeGoogleShoppingProduct query opts w).2 in
     sent w' = sent w ∨ ∃ body, sent w' = sent w ++ [post deadline body]) ∧
  (∀ query opts (w : world),
     let w' := (Pricing.ScrapeGoogleShoppingPricing query opts w).2 in
     sent w' = sent w ∨ ∃ body, sent w' = sent w ++ [post deadline body]).
Proof.
  intros deadline. repeat split; intros; subst w'.
  - change (Url.ScrapeGoogleShoppingUrl url opts w)
      with (Url.ScrapeGoogleShoppingUrlCtx deadline url opts w).
    rewrite Url_run.
    unfold after_check at 1. destruct (ValidateUrl _ _); simpl; auto.
    apply checked_submit_sent.
  - change (Search.ScrapeGoogleShoppingSearch query opts w)
      with (Search.ScrapeGoogleShoppingSearchCtx deadline query opts w).
    rewrite Search_run. apply checked_submit_sent.
  - change (Product.ScrapeGoogleShoppingProduct query opts w)
      with (Product.ScrapeGoogleShoppingProductCtx deadline query opts w).
    rewrite Product_run. apply checked_submit_sent.
  - change (Pricing.ScrapeGoogleShoppingPricing query opts w)
      with (Pricing.ScrapeGoogleShoppingPricingCtx deadline query opts w).
    rewrite Pricing_run. apply checked_submit_sent.
Qed.

End Construction.

(** ** Parameter checks of the search target *)

Section SearchChecks.
Context {env : Externals}.

Lemma SetDefaultSortBy_sort_by (context : oxylabs.ContextOption) :
  index (internal.SetDefaultSortBy context) "sort_by" =
    if is_nil (index context "sort_by") then VString "r"
    else index context "sort_by".
Proof.
  unfold internal.SetDefaultSortBy.
  destruct (is_nil (index context "sort_by")); [|done].
  unfold index. by rewrite lookup_insert_eq.
Qed.

Lemma SetDefaultSortBy_other (context : oxylabs.ContextOption) key :
  key ≠ "sort_by" →
  index (internal.SetDefaultSortBy context) key = index context key.
Proof.
  intros Hne. unfold internal.SetDefaultSortBy.
  destruct (is_nil (index context "sort_by")); [|done].
  unfold index. by rewrite lookup_insert_ne.
Qed.

Lemma InList_false (val : string) (l : list string) :
  val ∉ l → internal.InList val l = false.
Proof. intros Hnot. unfold internal.InList. by apply bool_decide_eq_false_2. Qed.

(** C1, amended. A search call whose options carry, once the empty user agent
    has been replaced by the default, a user agent [IsUserAgentValid] does not
    accept, or a non-empty render mode [IsRenderValid] does not accept, or a
    string [sort_by] context value outside [AcceptedSortByParameters], returns
    a validation error and leaves the world as it was: no request is sent. *)
Theorem C1_invalid_enumerated_rejected ctx query opts (w : world) :
  rejected_enumerated (last_or Search.zero opts) →
  ∃ e, Search.ScrapeGoogleShoppingSearchCtx ctx query opts w = (Err e, w) ∧
       validation_error e.
Proof.
  intros Hbad. rewrite Search_run. simpl.
  set (opt := last_or Search.zero opts) in *.
  unfold after_check, Search.checkParameterValidity. simpl.
  destruct (IsUserAgentValid (internal.SetDefaultUserAgent _)) eqn:Hua; simpl.
  2:{ eexists. split; [done|]. simpl. unfold validation_formats. set_solver. }
  destruct (bool_decide (Search.Render opt ≠ "")
            && negb (IsRenderValid (Search.Render opt))) eqn:Hrender.
  { eexists. split; [done|]. simpl. unfold validation_formats. set_solver. }
  destruct ((internal.SetDefaultPages (Search.Pages opt) <=? 0)
            || (internal.SetDefaultStartPage (Search.StartPage opt) <=? 0))
    eqn:Hpages.
  { eexists. split; [done|]. simpl. unfold validation_formats. set_solver. }
  destruct Hbad as [Hbad | [[Hne Hbad] | (s & Hs & Hnot)]].
  - congruence.
  - rewrite Hbad, bool_decide_eq_true_2 in Hrender by done. done.
  - rewrite SetDefaultSortBy_sort_by, Hs. simpl.
    rewrite InList_false by done. simpl.
    eexists. split; [done|]. simpl. unfold validation_formats. set_solver.
Qed.

(** X17. The price condition with one bound only. When the earlier checks pass
    and exactly one of [min_price], [max_price] is set (a non-negative [int]
    for [min_price]), the condition asserts the absent bound to be an [int]
    and the check panics, in every environment. *)
Lemma Search_check_partial_price (opt : Search.GoogleShoppingSearchOpts)
    (context : oxylabs.ContextOption) :
  IsUserAgentValid (Search.UserAgent opt) = true →
  bool_decide (Search.Render opt ≠ "")
    && negb (IsRenderValid (Search.Render opt)) = false →
  0 < Search.Pages opt → 0 < Search.StartPage opt →
  (∃ s, index context "sort_by" = VString s ∧
        s ∈ AcceptedSortByParameters) →
  ((∃ n, index context "min_price" = VInt n ∧ 0 ≤ n) ∧
   index context "max_price" = VNil) ∨
  (index context "min_price" = VNil ∧ index context "max_price" ≠ VNil) →
  Search.checkParameterValidity opt context
    = Panic (InterfaceConversion VNil "int").
Proof.
  intros Hua Hrender Hpages Hstart (s & Hs & Hin) Hprice.
  unfold Search.checkParameterValidity.
  rewrite Hua, Hrender. simpl.
  replace (Search.Pages opt <=? 0) with false by (symmetry; apply Z.leb_gt; lia).
  replace (Search.StartPage opt <=? 0) with false
    by (symmetry; apply Z.leb_gt; lia).
  simpl. rewrite Hs. simpl.
  unfold internal.InList. rewrite bool_decide_eq_true_2 by done. simpl.
  destruct Hprice as [[(n & Hmin & Hn) Hmax] | [Hmin Hmax]].
  - rewrite Hmin, Hmax. simpl.
    replace (n <? 0) with false by (symmetry; apply Z.ltb_ge; lia). done.
  - rewrite Hmin. destruct (index context "max_price"); done.
Qed.

End SearchChecks.

Section SearchRuns.
#[local] Existing Instance sample.externals.

Lemma C1_invalid_enumerated_rejected_witness :
  rejected_enumerated
    (last_or Search.zero [Some (sample.search_as "toaster")]) ∧
  ∃ e, Search.ScrapeGoogleShoppingSearchCtx context_Background "shoes"
         [Some (sample.search_as "toaster")] sample.world0
       = (Err e, sample.world0) ∧
       validation_error e.
Proof.
  assert (Hbad : rejected_enumerated
            (last_or Search.zero [Some (sample.search_as "toaster")])).
  { left. vm_compute. reflexivity. }
  split; [exact Hbad|].
  exact (C1_invalid_enumerated_rejected context_Background "shoes"
           [Some (sample.search_as "toaster")] sample.world0 Hbad).
Defined.

(** C1 as stated fails on two inputs. With no user agent set, the option set
    holds the empty user agent, which the validator of the sample environment
    does not accept; the default replaces it before the check, the call
    succeeds and one request is sent. With [sort_by] set to the integer 5, a
    value outside the accepted list, the type assertion to [string] panics:
    the call returns no error at all. *)
Lemma C1_counterexample :
  (invalid_enumerated (sample.search_as "") ∧
   ∃ resp body,
     Search.ScrapeGoogleShoppingSearchCtx context_Background "shoes"
       [Some (sample.search_as "")] sample.world0
     = (Ok resp, {| client := sample.client0;
                    sent := [post context_Background body] |})) ∧
  (invalid_enumerated
     (sample.search_with [sample.set_key "sort_by" (VInt 5)]) ∧
   Search.ScrapeGoogleShoppingSearchCtx context_Background "shoes"
     [Some (sample.search_with [sample.set_key "sort_by" (VInt 5)])]
     sample.world0
   = (Panic (InterfaceConversion (VInt 5) "string"), sample.world0)).
Proof.
  split; split.
  - left. vm_compute. reflexivity.
  - eexists _, _. vm_compute. reflexivity.
  - right. right. vm_compute. split; [discriminate|]. intros s _. discriminate.
  - vm_compute. reflexivity.
Qed.

(** C2. With only [min_price] supplied (and non-negative), or only
    [max_price] supplied, the price condition asserts the absent bound to be
    an [int]: the check panics on the nil value instead of returning nil or a
    validation error, and so does the whole call, before any request. *)
Lemma C2_partial_price_bounds_panic :
  let only_min := sample.search_with [sample.set_key "min_price" (VInt 5)] in
  let only_max := sample.search_with [sample.set_key "max_price" (VInt 5)] in
  Search.checkParameterValidity (Search.set_defaults only_min)
    (internal.SetDefaultSortBy
       (Search.apply_modifiers (Search.Context only_min)))
  = Panic (InterfaceConversion VNil "int") ∧
  Search.checkParameterValidity (Search.set_defaults only_max)
    (internal.SetDefaultSortBy
       (Search.apply_modifiers (Search.Context only_max)))
  = Panic (InterfaceConversion VNil "int") ∧
  Search.ScrapeGoogleShoppingSearchCtx context_Background "shoes"
    [Some only_min] sample.world0
  = (Panic (InterfaceConversion VNil "int"), sample.world0) ∧
  Search.ScrapeGoogleShoppingSearchCtx context_Background "shoes"
    [Some only_max] sample.world0
  = (Panic (InterfaceConversion VNil "int"), sample.world0).
Proof. vm_compute. repeat split. Qed.

End SearchRuns.

(** ** The payloads *)

Section Payloads.
Context {env : Externals}.

Lemma add_parsing_instructions_dom payload instructions :
  dom (add_parsing_instructions payload instructions).1 =
    dom payload ∪ match instructions with
                  | Some _ => {["parsing_instructions"]}
                  | None => ∅
                  end.
Proof.
  destruct instructions; simpl.
  - rewrite dom_insert_L. set_solver.
  - set_solver.
Qed.

Lemma add_parsing_instructions_flag payload instructions :
  (add_parsing_instructions payload instructions).2 = true ↔
  instructions ≠ None.
Proof. destruct instructions; simpl; split; done. Qed.

Lemma add_parsing_instructions_lookup payload instructions key :
  key ≠ "parsing_instructions" →
  (add_parsing_instructions payload instructions).1 !! key = payload !! key.
Proof.
  intros Hne. destruct instructions; simpl; [|done].
  by rewrite lookup_insert_ne.
Qed.

(** Reading one key of a payload literal. *)
Ltac payload_lookup :=
  rewrite ?add_parsing_instructions_lookup by done;
  repeat (rewrite lookup_insert_ne by done);
  first [apply lookup_insert_eq | apply lookup_singleton_eq].

(** C3. The setters give an unset (zero-valued) field its default and leave
    a set field alone: the user agent becomes the desktop class, the domain
    the default domain, start page and pages 1, the limit the default of the
    target class (10 for SERP, 48 for e-commerce), the content encoding
    ["base64"]. A call of any of the four Google Shopping methods that
    passes its checks submits a payload in which [user_agent_type], [domain],
    [start_page] and [pages], where the target has them, hold the default
    when the caller left the field unset and the caller's value otherwise. *)
Theorem C3_defaults_reach_payload :
  (internal.SetDefaultUserAgent "" = UA_DESKTOP ∧
   internal.DefaultUserAgent = UA_DESKTOP ∧
   internal.SetDefaultDomain "" = DOMAIN_COM ∧
   internal.DefaultDomain = DOMAIN_COM ∧
   internal.SetDefaultStartPage 0 = 1 ∧
   internal.SetDefaultPages 0 = 1 ∧
   internal.SetDefaultLimit 0 internal.DefaultLimit_SERP = 10 ∧
   internal.SetDefaultLimit 0 internal.DefaultLimit_ECOMMERCE = 48 ∧
   internal.SetDefaultContentEncoding "" = "base64") ∧
  ((∀ ua, ua ≠ "" → internal.SetDefaultUserAgent ua = ua) ∧
   (∀ domain, domain ≠ "" → internal.SetDefaultDomain domain = domain) ∧
   (∀ startPage, startPage ≠ 0 →
      internal.SetDefaultStartPage startPage = startPage) ∧
   (∀ pages, pages ≠ 0 → internal.SetDefaultPages pages = pages) ∧
   (∀ limit defaultLimit, limit ≠ 0 →
      internal.SetDefaultLimit limit defaultLimit = limit) ∧
   (∀ encoding, encoding ≠ "" →
      internal.SetDefaultContentEncoding encoding = encoding)) ∧
  (∀ ctx query opts (w : world),
     let given := last_or Search.zero opts in
     Search.checkParameterValidity (Search.set_defaults given)
       (internal.SetDefaultSortBy
          (Search.apply_modifiers (Search.Context given))) = Ok tt →
     ∃ payload customParserFlag,
       Search.ScrapeGoogleShoppingSearchCtx ctx query opts w =
         submit ctx payload (Search.Parse given) customParserFlag w ∧
       payload !! "user_agent_type" =
         Some (VString (if bool_decide (Search.UserAgent given = "")
                        then UA_DESKTOP else Search.UserAgent given)) ∧
       payload !! "domain" =
         Some (VString (if bool_decide (Search.Domain given = "")
                        then DOMAIN_COM else Search.Domain given)) ∧
       payload !! "start_page" =
         Some (VInt (if bool_decide (Search.StartPage given = 0)
                     then 1 else Search.StartPage given)) ∧
       payload !! "pages" =
         Some (VInt (if bool_decide (Search.Pages given = 0)
                     then 1 else Search.Pages given))) ∧
  (∀ ctx query opts (w : world),
     let given := last_or Pricing.zero opts in
     Pricing.checkParameterValidity (Pricing.set_defaults given) = Ok tt →
     ∃ payload customParserFlag,
       Pricing.ScrapeGoogleShoppingPricingCtx ctx query opts w =
         submit ctx payload (Pricing.Parse given) customParserFlag w ∧
       payload !! "user_agent_type" =
         Some (VString (if bool_decide (Pricing.UserAgent given = "")
                        then UA_DESKTOP else Pricing.UserAgent given)) ∧
       payload !! "domain" =
         Some (VString (if bool_decide (Pricing.Domain given = "")
                        then DOMAIN_COM else Pricing.Domain given)) ∧
       payload !! "start_page" =
         Some (VInt (if bool_decide (Pricing.StartPage given = 0)
                     then 1 else Pricing.StartPage given)) ∧
       payload !! "pages" =
         Some (VInt (if bool_decide (Pricing.Pages given = 0)
                     then 1 else Pricing.Pages given))) ∧
  (∀ ctx query opts (w : world),
     let given := last_or Product.zero opts in
     Product.checkParameterValidity (Product.set_defaults given) = Ok tt →
     ∃ payload customParserFlag,
       Product.ScrapeGoogleShoppingProductCtx ctx query opts w =
         submit ctx payload (Product.Parse given) customParserFlag w ∧
       payload !! "user_agent_type" =
         Some (VString (if bool_decide (Product.UserAgent given = "")
                        then UA_DESKTOP else Product.UserAgent given)) ∧
       payload !! "domain" =
         Some (VString (if bool_decide (Product.Domain given = "")
                        then DOMAIN_COM else Product.Domain given))) ∧
  (∀ ctx url opts (w : world),
     let given := last_or Url.zero opts in
     ValidateUrl url "shopping.google" = Ok tt →
     Url.checkParameterValidity (Url.set_defaults given) = Ok tt →
     ∃ payload customParserFlag,
       Url.ScrapeGoogleShoppingUrlCtx ctx url opts w =
         submit ctx payload (Url.Parse given) customParserFlag w ∧
       payload !! "user_agent_type" =
         Some (VString (if bool_decide (Url.UserAgent given = "")
                        then UA_DESKTOP else Url.UserAgent given))).
Proof.
  split; [repeat split; reflexivity|].
  split.
  { unfold internal.SetDefaultUserAgent, internal.SetDefaultDomain,
      internal.SetDefaultStartPage, internal.SetDefaultPages,
      internal.SetDefaultLimit, internal.SetDefaultContentEncoding.
    repeat split; intros; by rewrite bool_decide_eq_false_2. }
  split; [|split; [|split]].
  - intros ctx query opts w given Hcheck.
    eexists _, _. split.
    { rewrite Search_run. fold given. simpl. rewrite Hcheck. done. }
    unfold Search.payload. simpl. repeat split; payload_lookup.
  - intros ctx query opts w given Hcheck.
    eexists _, _. split.
    { rewrite Pricing_run. fold given. simpl. rewrite Hcheck. done. }
    unfold Pricing.payload. simpl. repeat split; payload_lookup.
  - intros ctx query opts w given Hcheck.
    eexists _, _. split.
    { rewrite Product_run. fold given. simpl. rewrite Hcheck. done. }
    unfold Product.payload. simpl. repeat split; payload_lookup.
  - intros ctx url opts w given Hurl Hcheck.
    eexists _, _. split.
    { rewrite Url_run. fold given. simpl. rewrite Hurl, Hcheck. done. }
    unfold Url.payload. simpl. payload_lookup.
Qed.

(** C4. A call of [ScrapeGoogleShoppingUrlCtx] that passes the URL check and
    the parameter check submits a payload whose keys are exactly [source],
    [url], [user_agent_type], [render], [callback_url], [geo_location] and
    [parse], with [source] the google_shopping target identifier, plus
    [parsing_instructions] exactly when the caller supplied parse
    instructions; [customParserFlag] is true in exactly that case. *)
Theorem C4_url_payload_keys ctx url opts (w : world) :
  let given := last_or Url.zero opts in
  let opt := Url.set_defaults given in
  ValidateUrl url "shopping.google" = Ok tt →
  Url.checkParameterValidity opt = Ok tt →
  ∃ payload customParserFlag,
    Url.ScrapeGoogleShoppingUrlCtx ctx url opts w =
      submit ctx payload (Url.Parse given) customParserFlag w ∧
    dom payload =
      {["source"; "url"; "user_agent_type"; "render"; "callback_url";
        "geo_location"; "parse"]} ∪
      match Url.ParseInstructions given with
      | Some _ => {["parsing_instructions"]}
      | None => ∅
      end ∧
    payload !! "source" = Some (VString GoogleShoppingUrl) ∧
    payload !! "url" = Some (VString url) ∧
    ("parsing_instructions" ∈ dom payload ↔
     Url.ParseInstructions given ≠ None) ∧
    (customParserFlag = true ↔ Url.ParseInstructions given ≠ None).
Proof.
  intros given opt Hurl Hcheck.
  exists (Url.payload url opt).1, (Url.payload url opt).2.
  split.
  { rewrite Url_run. fold given. fold opt. rewrite Hurl, Hcheck. done. }
  unfold Url.payload.
  rewrite add_parsing_instructions_dom, add_parsing_instructions_flag.
  rewrite !add_parsing_instructions_lookup by done.
  rewrite !dom_insert_L, dom_singleton_L. simpl.
  split; [|split; [|split; [|split]]].
  - reflexivity.
  - done.
  - done.
  - destruct (Url.ParseInstructions given); set_solver.
  - done.
Qed.

(** C10. A search call that passes the parameter check submits a payload
    whose [context] entry is the list of the four pairs [nfpr], [sort_by],
    [min_price], [max_price], in this order; each value is the one the
    caller's modifiers left in the context map, nil when they left none,
    except that a nil [sort_by] is replaced by ["r"]. *)
Theorem C10_search_context_entry ctx query opts (w : world) :
  let given := last_or Search.zero opts in
  let modified := Search.apply_modifiers (Search.Context given) in
  let opt := Search.set_defaults given in
  Search.checkParameterValidity opt (internal.SetDefaultSortBy modified)
    = Ok tt →
  ∃ payload customParserFlag,
    Search.ScrapeGoogleShoppingSearchCtx ctx query opts w =
      submit ctx payload (Search.Parse given) customParserFlag w ∧
    payload !! "context" = Some (VList
      [ VMap {[ "key" := VString "nfpr";
                "value" := default VNil (modified !! "nfpr") ]};
        VMap {[ "key" := VString "sort_by";
                "value" := match default VNil (modified !! "sort_by") with
                           | VNil => VString "r"
                           | sort_by => sort_by
                           end ]};
        VMap {[ "key" := VString "min_price";
                "value" := default VNil (modified !! "min_price") ]};
        VMap {[ "key" := VString "max_price";
                "value" := default VNil (modified !! "max_price") ]} ]).
Proof.
  intros given modified opt Hcheck.
  exists (Search.payload query opt (internal.SetDefaultSortBy modified)).1,
    (Search.payload query opt (internal.SetDefaultSortBy modified)).2.
  split.
  { rewrite Search_run. fold given. fold modified. fold opt.
    rewrite Hcheck. done. }
  unfold Search.payload.
  rewrite add_parsing_instructions_lookup by done.
  unfold Search.context_entries.
  rewrite SetDefaultSortBy_sort_by, !SetDefaultSortBy_other by done.
  unfold index. simplify_map_eq. repeat f_equal.
  by destruct (default VNil (modified !! "sort_by")).
Qed.

End Payloads.

(** ** Start page and pages *)

Section Pagination.
Context {env : Externals}.

Lemma SetDefaultPages_positive (pages : Z) :
  0 ≤ pages → (internal.SetDefaultPages pages <=? 0) = false.
Proof.
  intros Hpages. unfold internal.SetDefaultPages.
  case_bool_decide; apply Z.leb_gt; lia.
Qed.

Lemma SetDefaultStartPage_positive (startPage : Z) :
  0 ≤ startPage → (internal.SetDefaultStartPage startPage <=? 0) = false.
Proof.
  intros Hpage. unfold internal.SetDefaultStartPage.
  case_bool_decide; apply Z.leb_gt; lia.
Qed.

Lemma check_parse_instructions_not_Errorf instructions format args :
  check_parse_instructions instructions ≠ Err (Errorf format args).
Proof.
  unfold check_parse_instructions. destruct instructions; [|done].
  by destruct (ValidateParseInstructions _).
Qed.

Lemma Search_check_pages (opt : Search.GoogleShoppingSearchOpts) context :
  (Search.Pages opt <=? 0) || (Search.StartPage opt <=? 0) = false →
  Search.checkParameterValidity opt context ≠ Err pages_error.
Proof.
  intros Hpages. unfold Search.checkParameterValidity, pages_error.
  destruct (negb (IsUserAgentValid _)); [done|].
  destruct (_ && _); [done|].
  rewrite Hpages. unfold and_then, or_else.
  destruct (index context "sort_by"); simpl; try done.
  - destruct (index context "min_price"), (index context "max_price");
      simpl; try done;
      try apply check_parse_instructions_not_Errorf;
      repeat (match goal with |- context [if ?b then _ else _] =>
                destruct b end; simpl; try done);
      apply check_parse_instructions_not_Errorf.
  - destruct (negb (internal.InList _ _)); simpl; [done|].
    destruct (index context "min_price"), (index context "max_price");
      simpl; try done;
      try apply check_parse_instructions_not_Errorf;
      repeat (match goal with |- context [if ?b then _ else _] =>
                destruct b end; simpl; try done);
      apply check_parse_instructions_not_Errorf.
Qed.

Lemma Pricing_check_pages (opt : Pricing.GoogleShoppingPricingOpts) :
  (Pricing.Pages opt <=? 0) || (Pricing.StartPage opt <=? 0) = false →
  Pricing.checkParameterValidity opt ≠ Err pages_error.
Proof.
  intros Hpages. unfold Pricing.checkParameterValidity, pages_error.
  destruct (negb (IsUserAgentValid _)); [done|].
  destruct (_ && _); [done|].
  rewrite Hpages. apply check_parse_instructions_not_Errorf.
Qed.

(** C9. The search and pricing methods apply the defaults before they check
    the parameters: the check sees 1 where the caller left [Pages] or
    [StartPage] at 0. So the check never returns the pages error for a call
    whose [Pages] and [StartPage] are zero or positive; it can return it only
    when the caller supplied a negative one. *)
Theorem C9_zero_pages_not_rejected ctx query searchOpts pricingOpts
    (w : world) :
  let s := last_or Search.zero searchOpts in
  let context :=
    internal.SetDefaultSortBy (Search.apply_modifiers (Search.Context s)) in
  let p := last_or Pricing.zero pricingOpts in
  (Search.ScrapeGoogleShoppingSearchCtx ctx query searchOpts w =
     after_check (Search.checkParameterValidity (Search.set_defaults s)
                    context)
       (submit ctx (Search.payload query (Search.set_defaults s) context).1
          (Search.Parse s)
          (Search.payload query (Search.set_defaults s) context).2) w ∧
   Search.Pages (Search.set_defaults s) =
     (if bool_decide (Search.Pages s = 0) then 1 else Search.Pages s) ∧
   Search.StartPage (Search.set_defaults s) =
     (if bool_decide (Search.StartPage s = 0) then 1
      else Search.StartPage s) ∧
   (0 ≤ Search.Pages s → 0 ≤ Search.StartPage s →
    Search.checkParameterValidity (Search.set_defaults s) context
      ≠ Err pages_error) ∧
   (Search.checkParameterValidity (Search.set_defaults s) context
      = Err pages_error →
    Search.Pages s < 0 ∨ Search.StartPage s < 0)) ∧
  (Pricing.ScrapeGoogleShoppingPricingCtx ctx query pricingOpts w =
     after_check (Pricing.checkParameterValidity (Pricing.set_defaults p))
       (submit ctx (Pricing.payload query (Pricing.set_defaults p)).1
          (Pricing.Parse p)
          (Pricing.payload query (Pricing.set_defaults p)).2) w ∧
   Pricing.Pages (Pricing.set_defaults p) =
     (if bool_decide (Pricing.Pages p = 0) then 1 else Pricing.Pages p) ∧
   Pricing.StartPage (Pricing.set_defaults p) =
     (if bool_decide (Pricing.StartPage p = 0) then 1
      else Pricing.StartPage p) ∧
   (0 ≤ Pricing.Pages p → 0 ≤ Pricing.StartPage p →
    Pricing.checkParameterValidity (Pricing.set_defaults p)
      ≠ Err pages_error) ∧
   (Pricing.checkParameterValidity (Pricing.set_defaults p)
      = Err pages_error →
    Pricing.Pages p < 0 ∨ Pricing.StartPage p < 0)).
Proof.
  intros s context p.
  assert (Hs : 0 ≤ Search.Pages s → 0 ≤ Search.StartPage s →
               Search.checkParameterValidity (Search.set_defaults s) context
                 ≠ Err pages_error).
  { intros Hpages Hstart. apply Search_check_pages. simpl.
    by rewrite SetDefaultPages_positive, SetDefaultStartPage_positive. }
  assert (Hp : 0 ≤ Pricing.Pages p → 0 ≤ Pricing.StartPage p →
               Pricing.checkParameterValidity (Pricing.set_defaults p)
                 ≠ Err pages_error).
  { intros Hpages Hstart. apply Pricing_check_pages. simpl.
    by rewrite SetDefaultPages_positive, SetDefaultStartPage_positive. }
  split.
  - split; [apply Search_run|]. repeat split; try done.
    intros Herr.
    destruct (decide (0 ≤ Search.Pages s)) as [Hpages|Hpages]; [|lia].
    destruct (decide (0 ≤ Search.StartPage s)) as [Hstart|Hstart]; [|lia].
    by destruct (Hs Hpages Hstart).
  - split; [apply Pricing_run|]. repeat split; try done.
    intros Herr.
    destruct (decide (0 ≤ Pricing.Pages p)) as [Hpages|Hpages]; [|lia].
    destruct (decide (0 ≤ Pricing.StartPage p)) as [Hstart|Hstart]; [|lia].
    by destruct (Hp Hpages Hstart).
Qed.

End Pagination.

(** ** The statements at concrete inputs, in the sample environment *)

Section Witnesses.
#[local] Existing Instance sample.externals.

(** A search call with nothing set succeeds and sends one POST; with a
    negative page count it stops at the pages check; with an unknown sort key
    it stops at the sort check; a URL call for a foreign host stops at the
    URL check. None of the rejected calls sends a request. *)
Example search_defaults_run :
  ∃ resp body,
    Search.ScrapeGoogleShoppingSearch "shoes" [] sample.world0 =
      (Ok resp,
       {| client := sample.client0;
          sent := [post (context_WithTimeout context_Background
                           internal.DefaultTimeout) body] |}) ∧
    body !! "pages" = Some (VInt 1) ∧
    body !! "user_agent_type" = Some (VString "desktop").
Proof. eexists _, _. vm_compute. repeat split. Qed.

Example pricing_negative_pages_run :
  Pricing.ScrapeGoogleShoppingPricingCtx context_Background "shoes"
    [None; Some (sample.pricing_pages 1 (-2))] sample.world0 =
    (Err pages_error, sample.world0).
Proof. vm_compute. reflexivity. Qed.

Example search_unknown_sort_key_run :
  Search.ScrapeGoogleShoppingSearchCtx context_Background "shoes"
    [Some (sample.search_with [sample.set_key "sort_by" (VString "x")])]
    sample.world0 =
    (Err (Errorf "invalid sort_by parameter: %v" [VString "x"]),
     sample.world0).
Proof. vm_compute. reflexivity. Qed.

Example url_foreign_host_run :
  Url.ScrapeGoogleShoppingUrlCtx context_Background "https://example.com"
    [] sample.world0 =
    (Err (errors_New "url does not belong to the expected host"),
     sample.world0).
Proof. vm_compute. reflexivity. Qed.

Lemma C3_defaults_reach_payload_witness :
  (Search.checkParameterValidity
     (Search.set_defaults (last_or Search.zero []))
     (internal.SetDefaultSortBy
        (Search.apply_modifiers
           (Search.Context (last_or Search.zero [])))) = Ok tt ∧
   ∃ payload : gmap string value,
     payload !! "user_agent_type" = Some (VString "desktop") ∧
     payload !! "domain" = Some (VString "com") ∧
     payload !! "start_page" = Some (VInt 1) ∧
     payload !! "pages" = Some (VInt 1)) ∧
  (Pricing.checkParameterValidity
     (Pricing.set_defaults
        (last_or Pricing.zero [Some (sample.pricing_pages 3 0)])) = Ok tt ∧
   ∃ payload : gmap string value,
     payload !! "start_page" = Some (VInt 3) ∧
     payload !! "pages" = Some (VInt 1)) ∧
  (Product.checkParameterValidity
     (Product.set_defaults (last_or Product.zero [])) = Ok tt ∧
   ∃ payload : gmap string value, payload !! "domain" = Some (VString "com")) ∧
  (ValidateUrl "https://shopping.google.com/product/1" "shopping.google"
     = Ok tt ∧
   Url.checkParameterValidity (Url.set_defaults (last_or Url.zero []))
     = Ok tt ∧
   ∃ payload : gmap string value, payload !! "user_agent_type" = Some (VString "desktop")) ∧
  ("mobile" ≠ "" ∧ internal.SetDefaultUserAgent "mobile" = "mobile") ∧
  ("de" ≠ "" ∧ internal.SetDefaultDomain "de" = "de") ∧
  (2 ≠ 0 ∧ internal.SetDefaultStartPage 2 = 2) ∧
  (5 ≠ 0 ∧ internal.SetDefaultPages 5 = 5) ∧
  (20 ≠ 0 ∧ internal.SetDefaultLimit 20 internal.DefaultLimit_SERP = 20) ∧
  ("gzip" ≠ "" ∧ internal.SetDefaultContentEncoding "gzip" = "gzip").
Proof.
  destruct (C3_defaults_reach_payload (env := sample.externals))
    as (_ & (Hua & Hdomain & Hstart & Hpages & Hlimit & Hencoding)
        & Hsearch & Hpricing & Hproduct & Hurl).
  assert (Hs : Search.checkParameterValidity
     (Search.set_defaults (last_or Search.zero []))
     (internal.SetDefaultSortBy
        (Search.apply_modifiers
           (Search.Context (last_or Search.zero [])))) = Ok tt)
    by (vm_compute; reflexivity).
  assert (Hp : Pricing.checkParameterValidity
     (Pricing.set_defaults
        (last_or Pricing.zero [Some (sample.pricing_pages 3 0)])) = Ok tt)
    by (vm_compute; reflexivity).
  assert (Hd : Product.checkParameterValidity
     (Product.set_defaults (last_or Product.zero [])) = Ok tt)
    by (vm_compute; reflexivity).
  assert (Hv : ValidateUrl "https://shopping.google.com/product/1"
                 "shopping.google" = Ok tt) by (vm_compute; reflexivity).
  assert (Hu : Url.checkParameterValidity
                 (Url.set_defaults (last_or Url.zero [])) = Ok tt)
    by (vm_compute; reflexivity).
  split; [split; [exact Hs|]|].
  { destruct (Hsearch context_Background "shoes" [] sample.world0 Hs)
      as (payload & flag & _ & H1 & H2 & H3 & H4).
    exists payload. repeat split; assumption. }
  split; [split; [exact Hp|]|].
  { destruct (Hpricing context_Background "shoes"
                [Some (sample.pricing_pages 3 0)] sample.world0 Hp)
      as (payload & flag & _ & _ & _ & H3 & H4).
    exists payload. split; assumption. }
  split; [split; [exact Hd|]|].
  { destruct (Hproduct context_Background "shoes" [] sample.world0 Hd)
      as (payload & flag & _ & _ & H2).
    exists payload. assumption. }
  split; [split; [exact Hv|split; [exact Hu|]]|].
  { destruct (Hurl context_Background
                "https://shopping.google.com/product/1" [] sample.world0
                Hv Hu) as (payload & flag & _ & H1).
    exists payload. assumption. }
  assert (Hne1 : "mobile" ≠ "") by discriminate.
  assert (Hne2 : "de" ≠ "") by discriminate.
  assert (Hne3 : 2 ≠ 0) by lia.
  assert (Hne4 : 5 ≠ 0) by lia.
  assert (Hne5 : 20 ≠ 0) by lia.
  assert (Hne6 : "gzip" ≠ "") by discriminate.
  exact (conj (conj Hne1 (Hua "mobile" Hne1))
           (conj (conj Hne2 (Hdomain "de" Hne2))
              (conj (conj Hne3 (Hstart 2 Hne3))
                 (conj (conj Hne4 (Hpages 5 Hne4))
                    (conj (conj Hne5
                             (Hlimit 20 internal.DefaultLimit_SERP Hne5))
                       (conj Hne6 (Hencoding "gzip" Hne6))))))).
Defined.

Lemma C4_url_payload_keys_witness :
  ValidateUrl "https://shopping.google.com/product/1" "shopping.google"
    = Ok tt ∧
  Url.checkParameterValidity (Url.set_defaults (last_or Url.zero []))
    = Ok tt ∧
  ∃ (payload : gmap string value) customParserFlag,
    Url.ScrapeGoogleShoppingUrlCtx context_Background
      "https://shopping.google.com/product/1" [] sample.world0 =
      submit context_Background payload false customParserFlag
        sample.world0 ∧
    payload !! "source" = Some (VString "google_shopping") ∧
    ("parsing_instructions" ∈ dom payload ↔
     Url.ParseInstructions (last_or Url.zero []) ≠ None).
Proof.
  assert (Hv : ValidateUrl "https://shopping.google.com/product/1"
                 "shopping.google" = Ok tt) by (vm_compute; reflexivity).
  assert (Hu : Url.checkParameterValidity
                 (Url.set_defaults (last_or Url.zero [])) = Ok tt)
    by (vm_compute; reflexivity).
  split; [exact Hv|]. split; [exact Hu|].
  destruct (C4_url_payload_keys context_Background
              "https://shopping.google.com/product/1" [] sample.world0
              Hv Hu)
    as (payload & flag & Hrun & _ & Hsource & _ & Hpi & _).
  exists payload, flag. repeat split; try assumption; apply Hpi.
Defined.

Lemma C9_zero_pages_not_rejected_witness :
  0 ≤ Search.Pages (last_or Search.zero []) ∧
  0 ≤ Search.StartPage (last_or Search.zero []) ∧
  Search.checkParameterValidity
    (Search.set_defaults (last_or Search.zero []))
    (internal.SetDefaultSortBy
       (Search.apply_modifiers (Search.Context (last_or Search.zero []))))
    ≠ Err pages_error ∧
  0 ≤ Pricing.Pages (last_or Pricing.zero []) ∧
  0 ≤ Pricing.StartPage (last_or Pricing.zero []) ∧
  Pricing.checkParameterValidity
    (Pricing.set_defaults (last_or Pricing.zero [])) ≠ Err pages_error ∧
  Pricing.checkParameterValidity
    (Pricing.set_defaults
       (last_or Pricing.zero [Some (sample.pricing_pages 1 (-2))]))
    = Err pages_error ∧
  (Pricing.Pages
     (last_or Pricing.zero [Some (sample.pricing_pages 1 (-2))]) < 0 ∨
   Pricing.StartPage
     (last_or Pricing.zero [Some (sample.pricing_pages 1 (-2))]) < 0).
Proof.
  assert (H0 : 0 ≤ 0) by lia.
  destruct (C9_zero_pages_not_rejected context_Background "shoes" [] []
              sample.world0)
    as ((_ & _ & _ & Hsearch & _) & (_ & _ & _ & Hpricing & _)).
  destruct (C9_zero_pages_not_rejected context_Background "shoes" []
              [Some (sample.pricing_pages 1 (-2))] sample.world0)
    as (_ & (_ & _ & _ & _ & Hnegative)).
  assert (Herr : Pricing.checkParameterValidity
    (Pricing.set_defaults
       (last_or Pricing.zero [Some (sample.pricing_pages 1 (-2))]))
    = Err pages_error) by (vm_compute; reflexivity).
  split; [exact H0|]. split; [exact H0|].
  split; [exact (Hsearch H0 H0)|].
  split; [exact H0|]. split; [exact H0|].
  split; [exact (Hpricing H0 H0)|].
  split; [exact Herr|]. exact (Hnegative Herr).
Defined.

Lemma C10_search_context_entry_witness :
  Search.checkParameterValidity
    (Search.set_defaults
       (last_or Search.zero
          [Some (sample.search_with [sample.set_key "nfpr" (VBool true)])]))
    (internal.SetDefaultSortBy
       (Search.apply_modifiers [sample.set_key "nfpr" (VBool true)]))
    = Ok tt ∧
  ∃ payload : gmap string value,
    payload !! "context" = Some (VList
      [ VMap {[ "key" := VString "nfpr"; "value" := VBool true ]};
        VMap {[ "key" := VString "sort_by"; "value" := VString "r" ]};
        VMap {[ "key" := VString "min_price"; "value" := VNil ]};
        VMap {[ "key" := VString "max_price"; "value" := VNil ]} ]).
Proof.
  assert (Hcheck : Search.checkParameterValidity
    (Search.set_defaults
       (last_or Search.zero
          [Some (sample.search_with [sample.set_key "nfpr" (VBool true)])]))
    (internal.SetDefaultSortBy
       (Search.apply_modifiers [sample.set_key "nfpr" (VBool true)]))
    = Ok tt) by (vm_compute; reflexivity).
  split; [exact Hcheck|].
  destruct (C10_search_context_entry context_Background "shoes"
              [Some (sample.search_with
                       [sample.set_key "nfpr" (VBool true)])]
              sample.world0 Hcheck)
    as (payload & flag & _ & Hcontext).
  exists payload. exact Hcontext.
Defined.

End Witnesses.

(** * Further properties of the code *)

(** ** When a parameter check passes *)

Section Validity.
Context {env : Externals}.

Lemma Ok_unit (u : unit) : @Ok unit u = Ok tt.
Proof. by destruct u. Qed.

Lemma render_check_false (render : oxylabs.Render) :
  bool_decide (render ≠ "") && negb (IsRenderValid render) = false ↔
  render_accepted render.
Proof.
  unfold render_accepted. case_bool_decide as Hne; simpl.
  - destruct (IsRenderValid render); simpl; naive_solver.
  - split; [|done]. intros _. left.
    by destruct (decide (render = "")).
Qed.

Lemma pages_check_false (pages startPage : Z) :
  (pages <=? 0) || (startPage <=? 0) = false ↔ 0 < pages ∧ 0 < startPage.
Proof. rewrite orb_false_iff, !Z.leb_gt. done. Qed.

Lemma check_parse_instructions_Ok instructions :
  check_parse_instructions instructions = Ok tt ↔
  instructions_accepted instructions.
Proof.
  unfold check_parse_instructions, instructions_accepted.
  destruct instructions as [m|]; [|done].
  destruct (ValidateParseInstructions m) as [[]| |]; split; done.
Qed.

Lemma sort_condition_false context :
  sort_condition context = Ok false ↔
  sort_by_accepted (index context "sort_by").
Proof.
  unfold sort_condition, sort_by_accepted, and_then.
  destruct (index context "sort_by") as [|s| | | |]; simpl;
    try (split; [done|]; intros [?|(? & ? & ?)]; done).
  - split; [by left|done].
  - unfold internal.InList. case_bool_decide as Hin; simpl.
    + split; [|done]. intros _. right. eauto.
    + split; [done|]. intros [?|(s' & [= <-] & ?)]; done.
Qed.

Lemma price_condition_false context :
  price_condition context = Ok false ↔
  prices_accepted (index context "min_price") (index context "max_price").
Proof.
  unfold price_condition, prices_accepted, and_then, or_else.
  destruct (index context "min_price") as [| |lo| | |] eqn:Hmin,
    (index context "max_price") as [| |hi| | |] eqn:Hmax; simpl;
    try destruct (lo <? 0) eqn:Hlo; simpl;
    try destruct (hi <? 0) eqn:Hhi; simpl;
    try (split; [done|];
         intros [[? ?]|(lo' & hi' & ? & ? & ? & ?)]; simplify_eq;
         try apply Z.ltb_lt in Hlo; try apply Z.ltb_lt in Hhi; lia).
  - split; [by left|done].
  - split; [|done]. intros _. right. exists lo, hi.
    apply Z.ltb_ge in Hlo. apply Z.ltb_ge in Hhi. done.
Qed.

Lemma Search_check_steps (opt : Search.GoogleShoppingSearchOpts) context :
  Search.checkParameterValidity opt context =
    if negb (IsUserAgentValid (Search.UserAgent opt)) then
      Err (Errorf "invalid user agent parameter: %v"
             [VString (Search.UserAgent opt)])
    else if bool_decide (Search.Render opt ≠ "")
            && negb (IsRenderValid (Search.Render opt)) then
      Err (Errorf "invalid render parameter: %v"
             [VString (Search.Render opt)])
    else if (Search.Pages opt <=? 0) || (Search.StartPage opt <=? 0) then
      Err pages_error
    else
      try bad_sort_by <- sort_condition context;
      if bad_sort_by then
        Err (Errorf "invalid sort_by parameter: %v" [index context "sort_by"])
      else
        try bad_price <- price_condition context;
        if bad_price then
          Err (Errorf "min and max prices should be greater than 0" [])
        else check_parse_instructions (Search.ParseInstructions opt).
Proof. reflexivity. Qed.

Lemma Search_check_Ok_facts (opt : Search.GoogleShoppingSearchOpts)
    (context : oxylabs.ContextOption) :
  Search.checkParameterValidity opt context = Ok tt →
  IsUserAgentValid (Search.UserAgent opt) = true ∧
  render_accepted (Search.Render opt) ∧
  0 < Search.Pages opt ∧ 0 < Search.StartPage opt ∧
  sort_by_accepted (index context "sort_by") ∧
  prices_accepted (index context "min_price") (index context "max_price") ∧
  instructions_accepted (Search.ParseInstructions opt).
Proof.
  rewrite Search_check_steps.
  rewrite <- render_check_false, <- sort_condition_false,
    <- price_condition_false, <- check_parse_instructions_Ok.
  pose proof (pages_check_false (Search.Pages opt) (Search.StartPage opt))
    as Hpages.
  destruct (IsUserAgentValid _); simpl; [|done].
  destruct (bool_decide _ && _); simpl; [done|].
  destruct ((Search.Pages opt <=? 0) || (Search.StartPage opt <=? 0));
    simpl; [done|].
  destruct (sort_condition context) as [[]| |]; simpl; try done.
  destruct (price_condition context) as [[]| |]; simpl; try done.
  naive_solver.
Qed.

(** X1. The search check returns nil exactly when the user agent is valid,
    the render mode is empty or valid, pages and start page are positive,
    [sort_by] is nil or an accepted string, the price bounds are both nil or
    both non-negative integers, and the parse instructions are absent or
    accepted by the validator. *)
Theorem Search_check_passes_iff (opt : Search.GoogleShoppingSearchOpts)
    (context : oxylabs.ContextOption) :
  Search.checkParameterValidity opt context = Ok tt ↔
  IsUserAgentValid (Search.UserAgent opt) = true ∧
  render_accepted (Search.Render opt) ∧
  0 < Search.Pages opt ∧ 0 < Search.StartPage opt ∧
  sort_by_accepted (index context "sort_by") ∧
  prices_accepted (index context "min_price") (index context "max_price") ∧
  instructions_accepted (Search.ParseInstructions opt).
Proof.
  split; [apply Search_check_Ok_facts|].
  intros (Hua & Hrender & Hpages & Hstart & Hsort & Hprice & Hinstr).
  rewrite Search_check_steps, Hua. simpl.
  apply render_check_false in Hrender. rewrite Hrender.
  rewrite (proj2 (pages_check_false _ _)) by done.
  apply sort_condition_false in Hsort. rewrite Hsort. simpl.
  apply price_condition_false in Hprice. rewrite Hprice. simpl.
  by apply check_parse_instructions_Ok.
Qed.

(** X2. The checks of the url and product targets return nil exactly when
    the user agent is valid, the render mode is empty or valid and the parse
    instructions are absent or accepted; the pricing check asks in addition
    for positive pages and start page. *)
Theorem sibling_checks_pass_iff :
  (∀ opt : Url.GoogleShoppingUrlOpts,
     Url.checkParameterValidity opt = Ok tt ↔
     IsUserAgentValid (Url.UserAgent opt) = true ∧
     render_accepted (Url.Render opt) ∧
     instructions_accepted (Url.ParseInstructions opt)) ∧
  (∀ opt : Product.GoogleShoppingProductOpts,
     Product.checkParameterValidity opt = Ok tt ↔
     IsUserAgentValid (Product.UserAgent opt) = true ∧
     render_accepted (Product.Render opt) ∧
     instructions_accepted (Product.ParseInstructions opt)) ∧
  (∀ opt : Pricing.GoogleShoppingPricingOpts,
     Pricing.checkParameterValidity opt = Ok tt ↔
     IsUserAgentValid (Pricing.UserAgent opt) = true ∧
     render_accepted (Pricing.Render opt) ∧
     0 < Pricing.Pages opt ∧ 0 < Pricing.StartPage opt ∧
     instructions_accepted (Pricing.ParseInstructions opt)).
Proof.
  split; [|split]; intros opt.
  - unfold Url.checkParameterValidity.
    rewrite <- render_check_false, <- check_parse_instructions_Ok.
    destruct (IsUserAgentValid _); simpl; [|naive_solver].
    destruct (bool_decide _ && _); simpl; naive_solver.
  - unfold Product.checkParameterValidity.
    rewrite <- render_check_false, <- check_parse_instructions_Ok.
    destruct (IsUserAgentValid _); simpl; [|naive_solver].
    destruct (bool_decide _ && _); simpl; naive_solver.
  - unfold Pricing.checkParameterValidity.
    rewrite <- render_check_false, <- check_parse_instructions_Ok.
    pose proof (pages_check_false (Pricing.Pages opt)
                  (Pricing.StartPage opt)) as Hpages.
    destruct (IsUserAgentValid _); simpl; [|naive_solver].
    destruct (bool_decide _ && _); simpl; [naive_solver|].
    destruct ((Pricing.Pages opt <=? 0) || (Pricing.StartPage opt <=? 0));
      simpl; naive_solver.
Qed.



(** X4. Once the earlier checks pass, the search check returns the price
    error when [min_price] is a negative integer, whatever [max_price] is
    (absent included), and when [min_price] is an integer and [max_price] a
    negative integer. *)
Theorem Search_negative_price_rejected
    (opt : Search.GoogleShoppingSearchOpts)
    (context : oxylabs.ContextOption) :
  reaches_price_check opt context →
  (∃ a, index context "min_price" = VInt a ∧ a < 0) ∨
  (∃ a b, index context "min_price" = VInt a ∧
          index context "max_price" = VInt b ∧ b < 0) →
  Search.checkParameterValidity opt context =
    Err (Errorf "min and max prices should be greater than 0" []).
Proof.
  intros (Hua & Hrender & Hpages & Hstart & Hsort) Hprice.
  rewrite Search_check_steps, Hua. simpl.
  apply render_check_false in Hrender. rewrite Hrender.
  rewrite (proj2 (pages_check_false _ _)) by done.
  apply sort_condition_false in Hsort. rewrite Hsort. simpl.
  assert (Hbad : price_condition context = Ok true); [|by rewrite Hbad].
  unfold price_condition, and_then, or_else.
  destruct Hprice as [(a & -> & Ha)|(a & b & -> & -> & Hb)]; simpl.
  - by rewrite (proj2 (Z.ltb_lt _ _)).
  - destruct (a <? 0); simpl; [done|]. by rewrite (proj2 (Z.ltb_lt _ _)).
Qed.

End Validity.

(** ** What a call returns and sends *)

Section Calls.
Context {env : Externals}.

Lemma submit_run ctx payload parse flag (w : world) :
  submit ctx payload parse flag w =
    match json_Marshal payload with
    | Ok body => (answer w ctx body parse flag, after_post w ctx body)
    | Err err => (Err (ErrorfErr "error marshalling payload: %v" err), w)
    | Panic p => (Panic p, w)
    end.
Proof.
  unfold submit, bind, lift, Req, answer, after_post, post. simpl.
  destruct (json_Marshal payload); simpl; try done.
  by destruct (service _ _ _).
Qed.

(** X5. The checks report the first offence in source order. A URL the URL
    check refuses ends the url call with that error, whatever the options. An
    invalid user agent (read after the default has replaced an empty one)
    ends each of the four calls with the user agent error naming it; with a
    valid user agent, a non-empty invalid render mode ends the call with the
    render error naming it. The world is unchanged in all these cases. *)
Theorem first_offence_reported ctx target (w : world) :
  (∀ opts e,
     ValidateUrl target "shopping.google" = Err e →
     Url.ScrapeGoogleShoppingUrlCtx ctx target opts w = (Err e, w)) ∧
  (∀ opts,
     let given := last_or Url.zero opts in
     let ua := internal.SetDefaultUserAgent (Url.UserAgent given) in
     ValidateUrl target "shopping.google" = Ok tt →
     (IsUserAgentValid ua = false →
      Url.ScrapeGoogleShoppingUrlCtx ctx target opts w =
        (Err (Errorf "invalid user agent parameter: %v" [VString ua]), w)) ∧
     (IsUserAgentValid ua = true → Url.Render given ≠ "" →
      IsRenderValid (Url.Render given) = false →
      Url.ScrapeGoogleShoppingUrlCtx ctx target opts w =
        (Err (Errorf "invalid render parameter: %v"
                [VString (Url.Render given)]), w))) ∧
  (∀ opts,
     let given := last_or Search.zero opts in
     let ua := internal.SetDefaultUserAgent (Search.UserAgent given) in
     (IsUserAgentValid ua = false →
      Search.ScrapeGoogleShoppingSearchCtx ctx target opts w =
        (Err (Errorf "invalid user agent parameter: %v" [VString ua]), w)) ∧
     (IsUserAgentValid ua = true → Search.Render given ≠ "" →
      IsRenderValid (Search.Render given) = false →
      Search.ScrapeGoogleShoppingSearchCtx ctx target opts w =
        (Err (Errorf "invalid render parameter: %v"
                [VString (Search.Render given)]), w))) ∧
  (∀ opts,
     let given := last_or Product.zero opts in
     let ua := internal.SetDefaultUserAgent (Product.UserAgent given) in
     (IsUserAgentValid ua = false →
      Product.ScrapeGoogleShoppingProductCtx ctx target opts w =
        (Err (Errorf "invalid user agent parameter: %v" [VString ua]), w)) ∧
     (IsUserAgentValid ua = true → Product.Render given ≠ "" →
      IsRenderValid (Product.Render given) = false →
      Product.ScrapeGoogleShoppingProductCtx ctx target opts w =
        (Err (Errorf "invalid render parameter: %v"
                [VString (Product.Render given)]), w))) ∧
  (∀ opts,
     let given := last_or Pricing.zero opts in
     let ua := internal.SetDefaultUserAgent (Pricing.UserAgent given) in
     (IsUserAgentValid ua = false →
      Pricing.ScrapeGoogleShoppingPricingCtx ctx target opts w =
        (Err (Errorf "invalid user agent parameter: %v" [VString ua]), w)) ∧
     (IsUserAgentValid ua = true → Pricing.Render given ≠ "" →
      IsRenderValid (Pricing.Render given) = false →
      Pricing.ScrapeGoogleShoppingPricingCtx ctx target opts w =
        (Err (Errorf "invalid render parameter: %v"
                [VString (Pricing.Render given)]), w))).
Proof.
  split; [|split; [|split; [|split]]].
  - intros opts e Hurl. rewrite Url_run. simpl. by rewrite Hurl.
  - intros opts given ua Hurl. split.
    + intros Hua. rewrite Url_run. simpl. rewrite Hurl. simpl.
      unfold after_check, Url.checkParameterValidity. simpl.
      fold given. fold ua. by rewrite Hua.
    + intros Hua Hne Hrender. rewrite Url_run. simpl. rewrite Hurl. simpl.
      unfold after_check, Url.checkParameterValidity. simpl.
      fold given. fold ua. rewrite Hua, Hrender. simpl.
      by rewrite bool_decide_eq_true_2.
  - intros opts given ua. split.
    + intros Hua. rewrite Search_run. simpl.
      unfold after_check, Search.checkParameterValidity. simpl.
      fold given. fold ua. by rewrite Hua.
    + intros Hua Hne Hrender. rewrite Search_run. simpl.
      unfold after_check, Search.checkParameterValidity. simpl.
      fold given. fold ua. rewrite Hua, Hrender. simpl.
      by rewrite bool_decide_eq_true_2.
  - intros opts given ua. split.
    + intros Hua. rewrite Product_run. simpl.
      unfold after_check, Product.checkParameterValidity. simpl.
      fold given. fold ua. by rewrite Hua.
    + intros Hua Hne Hrender. rewrite Product_run. simpl.
      unfold after_check, Product.checkParameterValidity. simpl.
      fold given. fold ua. rewrite Hua, Hrender. simpl.
      by rewrite bool_decide_eq_true_2.
  - intros opts given ua. split.
    + intros Hua. rewrite Pricing_run. simpl.
      unfold after_check, Pricing.checkParameterValidity. simpl.
      fold given. fold ua. by rewrite Hua.
    + intros Hua Hne Hrender. rewrite Pricing_run. simpl.
      unfold after_check, Pricing.checkParameterValidity. simpl.
      fold given. fold ua. rewrite Hua, Hrender. simpl.
      by rewrite bool_decide_eq_true_2.
Qed.

Lemma checked_submit_requests check ctx payload parse flag (w : world) :
  let w' := (after_check check (submit ctx payload parse flag) w).2 in
  sent w' = sent w ∨
  ∃ body, check = Ok tt ∧ json_Marshal payload = Ok body ∧
          sent w' = sent w ++ [post ctx body].
Proof.
  unfold after_check. destruct check as [[]| |]; simpl; auto.
  rewrite submit_run. destruct (json_Marshal payload); simpl; eauto.
Qed.

(** X6. A call of any of the four methods sends at most one request and
    keeps the requests sent before it. It sends one only when all its checks
    passed and the payload was marshalled; the request is then a POST under
    the caller's context whose body is the marshalled payload. *)
Theorem request_only_after_checks ctx target (w : world) :
  (∀ opts,
     let opt := Url.set_defaults (last_or Url.zero opts) in
     let w' := (Url.ScrapeGoogleShoppingUrlCtx ctx target opts w).2 in
     sent w' = sent w ∨
     ∃ body, ValidateUrl target "shopping.google" = Ok tt ∧
             Url.checkParameterValidity opt = Ok tt ∧
             json_Marshal (Url.payload target opt).1 = Ok body ∧
             sent w' = sent w ++ [post ctx body]) ∧
  (∀ opts,
     let given := last_or Search.zero opts in
     let opt := Search.set_defaults given in
     let context :=
       internal.SetDefaultSortBy
         (Search.apply_modifiers (Search.Context given)) in
     let w' := (Search.ScrapeGoogleShoppingSearchCtx ctx target opts w).2 in
     sent w' = sent w ∨
     ∃ body, Search.checkParameterValidity opt context = Ok tt ∧
             json_Marshal (Search.payload target opt context).1 = Ok body ∧
             sent w' = sent w ++ [post ctx body]) ∧
  (∀ opts,
     let opt := Product.set_defaults (last_or Product.zero opts) in
     let w' := (Product.ScrapeGoogleShoppingProductCtx ctx target opts w).2 in
     sent w' = sent w ∨
     ∃ body, Product.checkParameterValidity opt = Ok tt ∧
             json_Marshal (Product.payload target opt).1 = Ok body ∧
             sent w' = sent w ++ [post ctx body]) ∧
  (∀ opts,
     let opt := Pricing.set_defaults (last_or Pricing.zero opts) in
     let w' := (Pricing.ScrapeGoogleShoppingPricingCtx ctx target opts w).2 in
     sent w' = sent w ∨
     ∃ body, Pricing.checkParameterValidity opt = Ok tt ∧
             json_Marshal (Pricing.payload target opt).1 = Ok body ∧
             sent w' = sent w ++ [post ctx body]).
Proof.
  split; [|split; [|split]]; intros opts.
  - intros opt w'. subst w'. rewrite Url_run. fold opt.
    unfold after_check at 1.
    destruct (ValidateUrl _ _) as [[]| |]; simpl; auto.
    destruct (checked_submit_requests (Url.checkParameterValidity opt) ctx
                (Url.payload target opt).1 (Url.Parse opt)
                (Url.payload target opt).2 w)
      as [Hsame|(body & ? & ? & ?)]; [by left|right; eauto].
  - intros given opt context w'. subst w'. rewrite Search_run.
    fold given. fold opt. fold context.
    destruct (checked_submit_requests
                (Search.checkParameterValidity opt context) ctx
                (Search.payload target opt context).1 (Search.Parse opt)
                (Search.payload target opt context).2 w)
      as [Hsame|(body & ? & ? & ?)]; [by left|right; eauto].
  - intros opt w'. subst w'. rewrite Product_run. fold opt.
    destruct (checked_submit_requests (Product.checkParameterValidity opt)
                ctx (Product.payload target opt).1 (Product.Parse opt)
                (Product.payload target opt).2 w)
      as [Hsame|(body & ? & ? & ?)]; [by left|right; eauto].
  - intros opt w'. subst w'. rewrite Pricing_run. fold opt.
    destruct (checked_submit_requests (Pricing.checkParameterValidity opt)
                ctx (Pricing.payload target opt).1 (Pricing.Parse opt)
                (Pricing.payload target opt).2 w)
      as [Hsame|(body & ? & ? & ?)]; [by left|right; eauto].
Qed.

(** X7. When the checks of a call pass but the payload cannot be marshalled,
    the call returns the marshalling error, which carries the encoder's
    error, and sends nothing. *)
Theorem marshal_failure_reported ctx target err (w : world) :
  (∀ opts,
     let opt := Url.set_defaults (last_or Url.zero opts) in
     ValidateUrl target "shopping.google" = Ok tt →
     Url.checkParameterValidity opt = Ok tt →
     json_Marshal (Url.payload target opt).1 = Err err →
     Url.ScrapeGoogleShoppingUrlCtx ctx target opts w =
       (Err (ErrorfErr "error marshalling payload: %v" err), w)) ∧
  (∀ opts,
     let given := last_or Search.zero opts in
     let opt := Search.set_defaults given in
     let context :=
       internal.SetDefaultSortBy
         (Search.apply_modifiers (Search.Context given)) in
     Search.checkParameterValidity opt context = Ok tt →
     json_Marshal (Search.payload target opt context).1 = Err err →
     Search.ScrapeGoogleShoppingSearchCtx ctx target opts w =
       (Err (ErrorfErr "error marshalling payload: %v" err), w)) ∧
  (∀ opts,
     let opt := Product.set_defaults (last_or Product.zero opts) in
     Product.checkParameterValidity opt = Ok tt →
     json_Marshal (Product.payload target opt).1 = Err err →
     Product.ScrapeGoogleShoppingProductCtx ctx target opts w =
       (Err (ErrorfErr "error marshalling payload: %v" err), w)) ∧
  (∀ opts,
     let opt := Pricing.set_defaults (last_or Pricing.zero opts) in
     Pricing.checkParameterValidity opt = Ok tt →
     json_Marshal (Pricing.payload target opt).1 = Err err →
     Pricing.ScrapeGoogleShoppingPricingCtx ctx target opts w =
       (Err (ErrorfErr "error marshalling payload: %v" err), w)).
Proof.
  split; [|split; [|split]]; intros opts.
  - intros opt Hurl Hcheck Hmarshal. rewrite Url_run. fold opt.
    rewrite Hurl, Hcheck. simpl. by rewrite submit_run, Hmarshal.
  - intros given opt context Hcheck Hmarshal. rewrite Search_run.
    fold given. fold opt. fold context.
    rewrite Hcheck. simpl. by rewrite submit_run, Hmarshal.
  - intros opt Hcheck Hmarshal. rewrite Product_run. fold opt.
    rewrite Hcheck. simpl. by rewrite submit_run, Hmarshal.
  - intros opt Hcheck Hmarshal. rewrite Pricing_run. fold opt.
    rewrite Hcheck. simpl. by rewrite submit_run, Hmarshal.
Qed.

(** X8. When the checks of a call pass and the payload is marshalled to
    [body], the call sends one POST with that body and returns the error of
    the request unchanged if it fails, else what [GetResp] makes of the
    answer; [GetResp] is given the caller's [Parse] and a custom parser flag
    that is true exactly when parse instructions were supplied. *)
Theorem answer_returned ctx target body (w : world) :
  (∀ opts,
     let given := last_or Url.zero opts in
     let opt := Url.set_defaults given in
     ValidateUrl target "shopping.google" = Ok tt →
     Url.checkParameterValidity opt = Ok tt →
     json_Marshal (Url.payload target opt).1 = Ok body →
     Url.ScrapeGoogleShoppingUrlCtx ctx target opts w =
       (answer w ctx body (Url.Parse given)
          (bool_decide (Url.ParseInstructions given ≠ None)),
        after_post w ctx body)) ∧
  (∀ opts,
     let given := last_or Search.zero opts in
     let opt := Search.set_defaults given in
     let context :=
       internal.SetDefaultSortBy
         (Search.apply_modifiers (Search.Context given)) in
     Search.checkParameterValidity opt context = Ok tt →
     json_Marshal (Search.payload target opt context).1 = Ok body →
     Search.ScrapeGoogleShoppingSearchCtx ctx target opts w =
       (answer w ctx body (Search.Parse given)
          (bool_decide (Search.ParseInstructions given ≠ None)),
        after_post w ctx body)) ∧
  (∀ opts,
     let given := last_or Product.zero opts in
     let opt := Product.set_defaults given in
     Product.checkParameterValidity opt = Ok tt →
     json_Marshal (Product.payload target opt).1 = Ok body →
     Product.ScrapeGoogleShoppingProductCtx ctx target opts w =
       (answer w ctx body (Product.Parse given)
          (bool_decide (Product.ParseInstructions given ≠ None)),
        after_post w ctx body)) ∧
  (∀ opts,
     let given := last_or Pricing.zero opts in
     let opt := Pricing.set_defaults given in
     Pricing.checkParameterValidity opt = Ok tt →
     json_Marshal (Pricing.payload target opt).1 = Ok body →
     Pricing.ScrapeGoogleShoppingPricingCtx ctx target opts w =
       (answer w ctx body (Pricing.Parse given)
          (bool_decide (Pricing.ParseInstructions given ≠ None)),
        after_post w ctx body)).
Proof.
  assert (Hflag : ∀ payload instructions,
            (add_parsing_instructions payload instructions).2 =
            bool_decide (instructions ≠ None)).
  { intros payload [m|]; reflexivity. }
  split; [|split; [|split]]; intros opts.
  - intros given opt Hurl Hcheck Hmarshal. rewrite Url_run.
    fold given. fold opt. rewrite Hurl, Hcheck. simpl.
    rewrite submit_run, Hmarshal. unfold Url.payload. by rewrite Hflag.
  - intros given opt context Hcheck Hmarshal. rewrite Search_run.
    fold given. fold opt. fold context. rewrite Hcheck. simpl.
    rewrite submit_run, Hmarshal. unfold Search.payload. by rewrite Hflag.
  - intros given opt Hcheck Hmarshal. rewrite Product_run.
    fold given. fold opt. rewrite Hcheck. simpl.
    rewrite submit_run, Hmarshal. unfold Product.payload. by rewrite Hflag.
  - intros given opt Hcheck Hmarshal. rewrite Pricing_run.
    fold given. fold opt. rewrite Hcheck. simpl.
    rewrite submit_run, Hmarshal. unfold Pricing.payload. by rewrite Hflag.
Qed.

End Calls.

(** ** Option structs across calls *)

Section Options.
Context {env : Externals}.

Lemma SetDefaultUserAgent_idempotent (ua : oxylabs.UserAgent) :
  internal.SetDefaultUserAgent (internal.SetDefaultUserAgent ua) =
  internal.SetDefaultUserAgent ua.
Proof.
  unfold internal.SetDefaultUserAgent.
  repeat case_bool_decide; congruence.
Qed.

Lemma SetDefaultDomain_idempotent (domain : oxylabs.Domain) :
  internal.SetDefaultDomain (internal.SetDefaultDomain domain) =
  internal.SetDefaultDomain domain.
Proof.
  unfold internal.SetDefaultDomain. repeat case_bool_decide; congruence.
Qed.

Lemma SetDefaultPages_idempotent (pages : Z) :
  internal.SetDefaultPages (internal.SetDefaultPages pages) =
  internal.SetDefaultPages pages.
Proof.
  unfold internal.SetDefaultPages. repeat case_bool_decide; congruence.
Qed.

Lemma SetDefaultStartPage_idempotent (startPage : Z) :
  internal.SetDefaultStartPage (internal.SetDefaultStartPage startPage) =
  internal.SetDefaultStartPage startPage.
Proof.
  unfold internal.SetDefaultStartPage. repeat case_bool_decide; congruence.
Qed.

(** X9. A call writes the defaults into the option struct it is given. Giving
    that struct, defaults filled in, to the same method again runs exactly as
    the first call did: the defaults are applied once. *)
Theorem defaulted_options_reusable ctx target :
  (∀ opt,
     Url.ScrapeGoogleShoppingUrlCtx ctx target
       [Some (Url.set_defaults opt)] =
     Url.ScrapeGoogleShoppingUrlCtx ctx target [Some opt]) ∧
  (∀ opt,
     Search.ScrapeGoogleShoppingSearchCtx ctx target
       [Some (Search.set_defaults opt)] =
     Search.ScrapeGoogleShoppingSearchCtx ctx target [Some opt]) ∧
  (∀ opt,
     Product.ScrapeGoogleShoppingProductCtx ctx target
       [Some (Product.set_defaults opt)] =
     Product.ScrapeGoogleShoppingProductCtx ctx target [Some opt]) ∧
  (∀ opt,
     Pricing.ScrapeGoogleShoppingPricingCtx ctx target
       [Some (Pricing.set_defaults opt)] =
     Pricing.ScrapeGoogleShoppingPricingCtx ctx target [Some opt]).
Proof.
  split; [|split; [|split]]; intros opt.
  - unfold Url.ScrapeGoogleShoppingUrlCtx. cbv zeta.
    rewrite !last_or_singleton.
    replace (Url.set_defaults (Url.set_defaults opt))
      with (Url.set_defaults opt); [done|].
    unfold Url.set_defaults. simpl.
    by rewrite SetDefaultUserAgent_idempotent.
  - unfold Search.ScrapeGoogleShoppingSearchCtx. cbv zeta.
    rewrite !last_or_singleton.
    replace (Search.set_defaults (Search.set_defaults opt))
      with (Search.set_defaults opt); [done|].
    unfold Search.set_defaults. simpl.
    by rewrite SetDefaultUserAgent_idempotent, SetDefaultDomain_idempotent,
      SetDefaultPages_idempotent, SetDefaultStartPage_idempotent.
  - unfold Product.ScrapeGoogleShoppingProductCtx. cbv zeta.
    rewrite !last_or_singleton.
    replace (Product.set_defaults (Product.set_defaults opt))
      with (Product.set_defaults opt); [done|].
    unfold Product.set_defaults. simpl.
    by rewrite SetDefaultUserAgent_idempotent, SetDefaultDomain_idempotent.
  - unfold Pricing.ScrapeGoogleShoppingPricingCtx. cbv zeta.
    rewrite !last_or_singleton.
    replace (Pricing.set_defaults (Pricing.set_defaults opt))
      with (Pricing.set_defaults opt); [done|].
    unfold Pricing.set_defaults. simpl.
    by rewrite SetDefaultUserAgent_idempotent, SetDefaultDomain_idempotent,
      SetDefaultPages_idempotent, SetDefaultStartPage_idempotent.
Qed.

(** X10. None of the four methods reads [PollInterval]: two option structs
    that differ in this field only give the same run. *)
Theorem poll_interval_not_consulted ctx target (interval : Duration) :
  (∀ opt,
     Url.ScrapeGoogleShoppingUrlCtx ctx target
       [Some {| Url.UserAgent := Url.UserAgent opt;
                Url.Render := Url.Render opt;
                Url.CallbackUrl := Url.CallbackUrl opt;
                Url.GeoLocation := Url.GeoLocation opt;
                Url.Parse := Url.Parse opt;
                Url.ParseInstructions := Url.ParseInstructions opt;
                Url.PollInterval := interval |}] =
     Url.ScrapeGoogleShoppingUrlCtx ctx target [Some opt]) ∧
  (∀ opt,
     Search.ScrapeGoogleShoppingSearchCtx ctx target
       [Some {| Search.Domain := Search.Domain opt;
                Search.StartPage := Search.StartPage opt;
                Search.Pages := Search.Pages opt;
                Search.Locale := Search.Locale opt;
                Search.ResultsLanguage := Search.ResultsLanguage opt;
                Search.GeoLocation := Search.GeoLocation opt;
                Search.UserAgent := Search.UserAgent opt;
                Search.Render := Search.Render opt;
                Search.CallbackURL := Search.CallbackURL opt;
                Search.Parse := Search.Parse opt;
                Search.ParseInstructions := Search.ParseInstructions opt;
                Search.PollInterval := interval;
                Search.Context := Search.Context opt |}] =
     Search.ScrapeGoogleShoppingSearchCtx ctx target [Some opt]) ∧
  (∀ opt,
     Product.ScrapeGoogleShoppingProductCtx ctx target
       [Some {| Product.Domain := Product.Domain opt;
                Product.Locale := Product.Locale opt;
                Product.ResultsLanguage := Product.ResultsLanguage opt;
                Product.GeoLocation := Product.GeoLocation opt;
                Product.UserAgent := Product.UserAgent opt;
                Product.Render := Product.Render opt;
                Product.CallbackURL := Product.CallbackURL opt;
                Product.Parse := Product.Parse opt;
                Product.ParseInstructions := Product.ParseInstructions opt;
                Product.PollInterval := interval |}] =
     Product.ScrapeGoogleShoppingProductCtx ctx target [Some opt]) ∧
  (∀ opt,
     Pricing.ScrapeGoogleShoppingPricingCtx ctx target
       [Some {| Pricing.Domain := Pricing.Domain opt;
                Pricing.StartPage := Pricing.StartPage opt;
                Pricing.Pages := Pricing.Pages opt;
                Pricing.Locale := Pricing.Locale opt;
                Pricing.ResultsLanguage := Pricing.ResultsLanguage opt;
                Pricing.GeoLocation := Pricing.GeoLocation opt;
                Pricing.UserAgent := Pricing.UserAgent opt;
                Pricing.Render := Pricing.Render opt;
                Pricing.CallbackURL := Pricing.CallbackURL opt;
                Pricing.Parse := Pricing.Parse opt;
                Pricing.ParseInstructions := Pricing.ParseInstructions opt;
                Pricing.PollInterval := interval |}] =
     Pricing.ScrapeGoogleShoppingPricingCtx ctx target [Some opt]).
Proof.
  split; [|split; [|split]]; intros []; reflexivity.
Qed.

End Options.

(** ** Defaults in the context map *)

Section ContextDefaults.

Lemma is_nil_false (v : value) : is_nil v = false ↔ v ≠ VNil.
Proof. destruct v; simpl; split; done. Qed.

Lemma context_default_spec (key : string) (dflt : value)
    (ctx : oxylabs.ContextOption) :
  dflt ≠ VNil →
  let ctx' := if is_nil (index ctx key) then <[key := dflt]> ctx else ctx in
  (index ctx key = VNil → index ctx' key = dflt) ∧
  (index ctx key ≠ VNil → ctx' = ctx) ∧
  index ctx' key ≠ VNil ∧
  (∀ other, other ≠ key → ctx' !! other = ctx !! other) ∧
  (if is_nil (index ctx' key) then <[key := dflt]> ctx' else ctx') = ctx'.
Proof.
  intros Hdflt ctx'. subst ctx'.
  destruct (is_nil (index ctx key)) eqn:Hnil.
  - assert (Hset : index (<[key := dflt]> ctx) key = dflt).
    { unfold index. by rewrite lookup_insert_eq. }
    rewrite Hset. repeat split.
    + intros Hne. apply is_nil_false in Hne. congruence.
    + done.
    + intros other Hother. by rewrite lookup_insert_ne.
    + apply is_nil_false in Hdflt. by rewrite Hdflt.
  - rewrite Hnil. apply is_nil_false in Hnil. repeat split; done.
Qed.

(** X11. [SetDefaultSortBy], [SetDefaultHotelOccupancy] and
    [SetDefaultHttpMethod] store ["r"], 2 and ["get"] under their key when the
    map holds nil or nothing there, and leave the map as it is when the key
    holds a value. Afterwards the key is never nil, no other key has changed,
    and applying the setter again changes nothing. *)
Theorem context_setters (ctx : oxylabs.ContextOption) :
  ((index ctx "sort_by" = VNil →
    index (internal.SetDefaultSortBy ctx) "sort_by" = VString "r") ∧
   (index ctx "sort_by" ≠ VNil → internal.SetDefaultSortBy ctx = ctx) ∧
   index (internal.SetDefaultSortBy ctx) "sort_by" ≠ VNil ∧
   (∀ other, other ≠ "sort_by" →
      internal.SetDefaultSortBy ctx !! other = ctx !! other) ∧
   internal.SetDefaultSortBy (internal.SetDefaultSortBy ctx) =
     internal.SetDefaultSortBy ctx) ∧
  ((index ctx "hotel_occupancy" = VNil →
    index (internal.SetDefaultHotelOccupancy ctx) "hotel_occupancy"
      = VInt 2) ∧
   (index ctx "hotel_occupancy" ≠ VNil →
    internal.SetDefaultHotelOccupancy ctx = ctx) ∧
   index (internal.SetDefaultHotelOccupancy ctx) "hotel_occupancy" ≠ VNil ∧
   (∀ other, other ≠ "hotel_occupancy" →
      internal.SetDefaultHotelOccupancy ctx !! other = ctx !! other) ∧
   internal.SetDefaultHotelOccupancy (internal.SetDefaultHotelOccupancy ctx)
     = internal.SetDefaultHotelOccupancy ctx) ∧
  ((index ctx "http_method" = VNil →
    index (internal.SetDefaultHttpMethod ctx) "http_method"
      = VString "get") ∧
   (index ctx "http_method" ≠ VNil →
    internal.SetDefaultHttpMethod ctx = ctx) ∧
   index (internal.SetDefaultHttpMethod ctx) "http_method" ≠ VNil ∧
   (∀ other, other ≠ "http_method" →
      internal.SetDefaultHttpMethod ctx !! other = ctx !! other) ∧
   internal.SetDefaultHttpMethod (internal.SetDefaultHttpMethod ctx)
     = internal.SetDefaultHttpMethod ctx).
Proof.
  split; [|split].
  - by apply (context_default_spec "sort_by" (VString "r")).
  - by apply (context_default_spec "hotel_occupancy" (VInt 2)).
  - by apply (context_default_spec "http_method" (VString "get")).
Qed.

End ContextDefaults.

(** ** The payloads of the query targets *)

(** Reading one key of a payload literal. *)
Ltac read_payload :=
  rewrite ?add_parsing_instructions_lookup by done;
  repeat (rewrite lookup_insert_ne by done);
  first [apply lookup_insert_eq | apply lookup_singleton_eq].

Section QueryPayloads.
Context {env : Externals}.

Lemma add_parsing_instructions_entry payload instructions :
  payload !! "parsing_instructions" = None →
  (add_parsing_instructions payload instructions).1
    !! "parsing_instructions" = VMap <$> instructions.
Proof.
  intros Hnone. destruct instructions; simpl; [|done].
  by rewrite lookup_insert_eq.
Qed.

(** X12. A search call that passes the check submits a payload with exactly
    the keys [source], [domain], [query], [start_page], [pages], [locale],
    [results_language], [geo_location], [user_agent_type], [render],
    [callback_url], [parse] and [context], plus [parsing_instructions]
    exactly when instructions were supplied, holding the caller's map.
    [source] is the search target, [query] the query, and the fields without
    a default are copied from the options as they are. *)
Theorem Search_payload_keys ctx query opts (w : world) :
  let given := last_or Search.zero opts in
  let opt := Search.set_defaults given in
  let context :=
    internal.SetDefaultSortBy
      (Search.apply_modifiers (Search.Context given)) in
  Search.checkParameterValidity opt context = Ok tt →
  ∃ payload customParserFlag,
    Search.ScrapeGoogleShoppingSearchCtx ctx query opts w =
      submit ctx payload (Search.Parse given) customParserFlag w ∧
    dom payload =
      {["source"; "domain"; "query"; "start_page"; "pages"; "locale";
        "results_language"; "geo_location"; "user_agent_type"; "render";
        "callback_url"; "parse"; "context"]} ∪
      match Search.ParseInstructions given with
      | Some _ => {["parsing_instructions"]}
      | None => ∅
      end ∧
    payload !! "parsing_instructions" =
      VMap <$> Search.ParseInstructions given ∧
    payload !! "source" = Some (VString GoogleShoppingSearch) ∧
    payload !! "query" = Some (VString query) ∧
    payload !! "locale" = Some (VString (Search.Locale given)) ∧
    payload !! "results_language" =
      Some (VString (Search.ResultsLanguage given)) ∧
    payload !! "geo_location" = Some (VString (Search.GeoLocation given)) ∧
    payload !! "render" = Some (VString (Search.Render given)) ∧
    payload !! "callback_url" = Some (VString (Search.CallbackURL given)) ∧
    payload !! "parse" = Some (VBool (Search.Parse given)).
Proof.
  intros given opt context Hcheck.
  exists (Search.payload query opt context).1,
    (Search.payload query opt context).2.
  split.
  { rewrite Search_run. fold given. fold opt. fold context.
    by rewrite Hcheck. }
  unfold Search.payload. split; [|split].
  - rewrite add_parsing_instructions_dom, !dom_insert_L, dom_singleton_L.
    reflexivity.
  - by apply add_parsing_instructions_entry.
  - repeat split; read_payload.
Qed.

(** X13. A product call that passes the check submits a payload with exactly
    the keys [source], [domain], [query], [locale], [results_language],
    [geo_location], [user_agent_type], [render], [callback_url] and [parse],
    plus [parsing_instructions] exactly when instructions were supplied,
    holding the caller's map; it has no [start_page], [pages] or [context]. *)
Theorem Product_payload_keys ctx query opts (w : world) :
  let given := last_or Product.zero opts in
  let opt := Product.set_defaults given in
  Product.checkParameterValidity opt = Ok tt →
  ∃ payload customParserFlag,
    Product.ScrapeGoogleShoppingProductCtx ctx query opts w =
      submit ctx payload (Product.Parse given) customParserFlag w ∧
    dom payload =
      {["source"; "domain"; "query"; "locale"; "results_language";
        "geo_location"; "user_agent_type"; "render"; "callback_url";
        "parse"]} ∪
      match Product.ParseInstructions given with
      | Some _ => {["parsing_instructions"]}
      | None => ∅
      end ∧
    payload !! "parsing_instructions" =
      VMap <$> Product.ParseInstructions given ∧
    payload !! "start_page" = None ∧
    payload !! "pages" = None ∧
    payload !! "context" = None ∧
    payload !! "source" = Some (VString GoogleShoppingProduct) ∧
    payload !! "query" = Some (VString query) ∧
    payload !! "locale" = Some (VString (Product.Locale given)) ∧
    payload !! "results_language" =
      Some (VString (Product.ResultsLanguage given)) ∧
    payload !! "geo_location" = Some (VString (Product.GeoLocation given)) ∧
    payload !! "render" = Some (VString (Product.Render given)) ∧
    payload !! "callback_url" = Some (VString (Product.CallbackURL given)) ∧
    payload !! "parse" = Some (VBool (Product.Parse given)).
Proof.
  intros given opt Hcheck.
  exists (Product.payload query opt).1, (Product.payload query opt).2.
  split.
  { rewrite Product_run. fold given. fold opt. by rewrite Hcheck. }
  unfold Product.payload. split; [|split; [|split; [|split; [|split]]]].
  - rewrite add_parsing_instructions_dom, !dom_insert_L, dom_singleton_L.
    reflexivity.
  - by apply add_parsing_instructions_entry.
  - by rewrite add_parsing_instructions_lookup.
  - by rewrite add_parsing_instructions_lookup.
  - by rewrite add_parsing_instructions_lookup.
  - repeat split; read_payload.
Qed.

(** X14. A pricing call that passes the check submits a payload with exactly
    the keys [source], [domain], [query], [start_page], [pages], [locale],
    [results_language], [geo_location], [user_agent_type], [render],
    [callback_url] and [parse], plus [parsing_instructions] exactly when
    instructions were supplied, holding the caller's map; it has no
    [context]. *)
Theorem Pricing_payload_keys ctx query opts (w : world) :
  let given := last_or Pricing.zero opts in
  let opt := Pricing.set_defaults given in
  Pricing.checkParameterValidity opt = Ok tt →
  ∃ payload customParserFlag,
    Pricing.ScrapeGoogleShoppingPricingCtx ctx query opts w =
      submit ctx payload (Pricing.Parse given) customParserFlag w ∧
    dom payload =
      {["source"; "domain"; "query"; "start_page"; "pages"; "locale";
        "results_language"; "geo_location"; "user_agent_type"; "render";
        "callback_url"; "parse"]} ∪
      match Pricing.ParseInstructions given with
      | Some _ => {["parsing_instructions"]}
      | None => ∅
      end ∧
    payload !! "parsing_instructions" =
      VMap <$> Pricing.ParseInstructions given ∧
    payload !! "context" = None ∧
    payload !! "source" = Some (VString GoogleShoppingPricing) ∧
    payload !! "query" = Some (VString query) ∧
    payload !! "locale" = Some (VString (Pricing.Locale given)) ∧
    payload !! "results_language" =
      Some (VString (Pricing.ResultsLanguage given)) ∧
    payload !! "geo_location" = Some (VString (Pricing.GeoLocation given)) ∧
    payload !! "render" = Some (VString (Pricing.Render given)) ∧
    payload !! "callback_url" = Some (VString (Pricing.CallbackURL given)) ∧
    payload !! "parse" = Some (VBool (Pricing.Parse given)).
Proof.
  intros given opt Hcheck.
  exists (Pricing.payload query opt).1, (Pricing.payload query opt).2.
  split.
  { rewrite Pricing_run. fold given. fold opt. by rewrite Hcheck. }
  unfold Pricing.payload. split; [|split; [|split]].
  - rewrite add_parsing_instructions_dom, !dom_insert_L, dom_singleton_L.
    reflexivity.
  - by apply add_parsing_instructions_entry.
  - by rewrite add_parsing_instructions_lookup.
  - repeat split; read_payload.
Qed.

End QueryPayloads.

(** ** Parse instructions and validated requests *)

Section Instructions.
Context {env : Externals}.

Lemma check_parse_instructions_Err m cause :
  ValidateParseInstructions m = Err cause →
  check_parse_instructions (Some m) =
    Err (ErrorfErr "invalid parse instructions: %w" cause).
Proof. intros Hcause. unfold check_parse_instructions. by rewrite Hcause. Qed.

Lemma Search_check_reaches_instructions
    (opt : Search.GoogleShoppingSearchOpts) context :
  reaches_price_check opt context →
  prices_accepted (index context "min_price") (index context "max_price") →
  Search.checkParameterValidity opt context =
    check_parse_instructions (Search.ParseInstructions opt).
Proof.
  intros (Hua & Hrender & Hpages & Hstart & Hsort) Hprice.
  rewrite Search_check_steps, Hua. simpl.
  apply render_check_false in Hrender. rewrite Hrender.
  rewrite (proj2 (pages_check_false _ _)) by done.
  apply sort_condition_false in Hsort. rewrite Hsort. simpl.
  apply price_condition_false in Hprice. by rewrite Hprice.
Qed.

Lemma sort_by_accepted_default (context : oxylabs.ContextOption) :
  sort_by_accepted (index context "sort_by") →
  sort_by_accepted (index (internal.SetDefaultSortBy context) "sort_by").
Proof.
  intros Hsort. rewrite SetDefaultSortBy_sort_by.
  destruct Hsort as [->|(s & -> & Hs)]; simpl.
  - right. exists "r". split; [done|].
    unfold AcceptedSortByParameters. set_solver.
  - right. eauto.
Qed.

(** X15. When everything else about a call is in order and the caller's
    parse instructions are refused by the instruction validator, the call
    returns the error "invalid parse instructions" wrapping the validator's
    error, and sends nothing. For search and pricing, "in order" includes
    pages and start page zero or positive; for search, a [sort_by] left unset
    or set to an accepted string and price bounds both unset or both
    non-negative integers. *)
Theorem refused_instructions_reported ctx target m cause (w : world) :
  ValidateParseInstructions m = Err cause →
  (∀ opts,
     let given := last_or Url.zero opts in
     ValidateUrl target "shopping.google" = Ok tt →
     IsUserAgentValid (internal.SetDefaultUserAgent (Url.UserAgent given))
       = true →
     render_accepted (Url.Render given) →
     Url.ParseInstructions given = Some m →
     Url.ScrapeGoogleShoppingUrlCtx ctx target opts w =
       (Err (ErrorfErr "invalid parse instructions: %w" cause), w)) ∧
  (∀ opts,
     let given := last_or Search.zero opts in
     let modified := Search.apply_modifiers (Search.Context given) in
     IsUserAgentValid (internal.SetDefaultUserAgent (Search.UserAgent given))
       = true →
     render_accepted (Search.Render given) →
     0 ≤ Search.Pages given → 0 ≤ Search.StartPage given →
     sort_by_accepted (index modified "sort_by") →
     prices_accepted (index modified "min_price")
       (index modified "max_price") →
     Search.ParseInstructions given = Some m →
     Search.ScrapeGoogleShoppingSearchCtx ctx target opts w =
       (Err (ErrorfErr "invalid parse instructions: %w" cause), w)) ∧
  (∀ opts,
     let given := last_or Product.zero opts in
     IsUserAgentValid
       (internal.SetDefaultUserAgent (Product.UserAgent given)) = true →
     render_accepted (Product.Render given) →
     Product.ParseInstructions given = Some m →
     Product.ScrapeGoogleShoppingProductCtx ctx target opts w =
       (Err (ErrorfErr "invalid parse instructions: %w" cause), w)) ∧
  (∀ opts,
     let given := last_or Pricing.zero opts in
     IsUserAgentValid
       (internal.SetDefaultUserAgent (Pricing.UserAgent given)) = true →
     render_accepted (Pricing.Render given) →
     0 ≤ Pricing.Pages given → 0 ≤ Pricing.StartPage given →
     Pricing.ParseInstructions given = Some m →
     Pricing.ScrapeGoogleShoppingPricingCtx ctx target opts w =
       (Err (ErrorfErr "invalid parse instructions: %w" cause), w)).
Proof.
  intros Hcause. split; [|split; [|split]]; intros opts.
  - intros given Hurl Hua Hrender Hm. rewrite Url_run. fold given.
    rewrite Hurl. simpl.
    unfold after_check, Url.checkParameterValidity. simpl.
    rewrite Hua. simpl. apply render_check_false in Hrender.
    rewrite Hrender, Hm. by rewrite (check_parse_instructions_Err m cause).
  - intros given modified Hua Hrender Hpages Hstart Hsort Hprice Hm.
    rewrite Search_run. fold given. fold modified.
    rewrite Search_check_reaches_instructions.
    + simpl. rewrite Hm. by rewrite (check_parse_instructions_Err m cause).
    + repeat split; simpl; try done.
      * apply Z.leb_gt. by apply SetDefaultPages_positive.
      * apply Z.leb_gt. by apply SetDefaultStartPage_positive.
      * by apply sort_by_accepted_default.
    + by rewrite !SetDefaultSortBy_other.
  - intros given Hua Hrender Hm. rewrite Product_run. fold given.
    unfold after_check, Product.checkParameterValidity. simpl.
    rewrite Hua. simpl. apply render_check_false in Hrender.
    rewrite Hrender, Hm. by rewrite (check_parse_instructions_Err m cause).
  - intros given Hua Hrender Hpages Hstart Hm. rewrite Pricing_run.
    fold given.
    unfold after_check, Pricing.checkParameterValidity. simpl.
    rewrite Hua. simpl. apply render_check_false in Hrender.
    rewrite Hrender.
    rewrite SetDefaultPages_positive, SetDefaultStartPage_positive by done.
    simpl. rewrite Hm. by rewrite (check_parse_instructions_Err m cause).
Qed.

(** X16. Whatever the options, a request the search method sends carries a
    payload that went through the check: its user agent is valid, its render
    mode empty or valid, its pages and start page positive, its [sort_by] an
    accepted string, and its price bounds both nil or both non-negative
    integers. *)
Theorem Search_request_is_validated ctx query opts (w : world) :
  let w' := (Search.ScrapeGoogleShoppingSearchCtx ctx query opts w).2 in
  sent w' ≠ sent w →
  ∃ (payload : gmap string value) body ua render pages startPage
    nfpr sort_by min_price max_price,
    json_Marshal payload = Ok body ∧
    sent w' = sent w ++ [post ctx body] ∧
    payload !! "user_agent_type" = Some (VString ua) ∧
    IsUserAgentValid ua = true ∧
    payload !! "render" = Some (VString render) ∧
    render_accepted render ∧
    payload !! "pages" = Some (VInt pages) ∧ 0 < pages ∧
    payload !! "start_page" = Some (VInt startPage) ∧ 0 < startPage ∧
    payload !! "context" = Some (VList
      [ VMap {[ "key" := VString "nfpr"; "value" := nfpr ]};
        VMap {[ "key" := VString "sort_by"; "value" := VString sort_by ]};
        VMap {[ "key" := VString "min_price"; "value" := min_price ]};
        VMap {[ "key" := VString "max_price"; "value" := max_price ]} ]) ∧
    sort_by ∈ AcceptedSortByParameters ∧
    prices_accepted min_price max_price.
Proof.
  intros w' Hsent. subst w'.
  rewrite Search_run in Hsent |- *.
  set (given := last_or Search.zero opts) in *.
  set (context := internal.SetDefaultSortBy
                    (Search.apply_modifiers (Search.Context given))) in *.
  destruct (checked_submit_requests
              (Search.checkParameterValidity (Search.set_defaults given)
                 context) ctx
              (Search.payload query (Search.set_defaults given) context).1
              (Search.Parse (Search.set_defaults given))
              (Search.payload query (Search.set_defaults given) context).2 w)
    as [Hsame|(body & Hcheck & Hmarshal & Hpost)]; [done|].
  apply Search_check_Ok_facts in Hcheck
    as (Hua & Hrender & Hpages & Hstart & Hsort & Hprice & _).
  assert (Hnot_nil : index context "sort_by" ≠ VNil).
  { subst context. rewrite SetDefaultSortBy_sort_by.
    destruct (is_nil _) eqn:Hnil; [done|]. by apply is_nil_false. }
  destruct Hsort as [Hnil|(s & Hs & Hin)]; [done|].
  eexists _, body, _, _, _, _, (index context "nfpr"), s,
    (index context "min_price"), (index context "max_price").
  split; [exact Hmarshal|]. split; [exact Hpost|].
  unfold Search.payload.
  split; [read_payload|]. split; [exact Hua|].
  split; [read_payload|]. split; [exact Hrender|].
  split; [read_payload|]. split; [exact Hpages|].
  split; [read_payload|]. split; [exact Hstart|].
  split; [|done].
  rewrite add_parsing_instructions_lookup by done.
  unfold Search.context_entries. rewrite Hs.
  repeat (rewrite lookup_insert_ne by done). apply lookup_singleton_eq.
Qed.

End Instructions.

(** ** The further properties at concrete inputs *)

Section MoreWitnesses.
#[local] Existing Instance sample.externals.

Lemma Search_check_passes_iff_witness :
  let opt :=
    Search.set_defaults
      (sample.search_with [sample.set_key "min_price" (VInt 3);
                           sample.set_key "max_price" (VInt 9)]) in
  let context :=
    internal.SetDefaultSortBy (Search.apply_modifiers (Search.Context opt)) in
  (IsUserAgentValid (Search.UserAgent opt) = true ∧
   render_accepted (Search.Render opt) ∧
   0 < Search.Pages opt ∧ 0 < Search.StartPage opt ∧
   sort_by_accepted (index context "sort_by") ∧
   prices_accepted (index context "min_price") (index context "max_price") ∧
   instructions_accepted (Search.ParseInstructions opt)) ∧
  Search.checkParameterValidity opt context = Ok tt.
Proof.
  intros opt context.
  assert (Hfacts :
    IsUserAgentValid (Search.UserAgent opt) = true ∧
    render_accepted (Search.Render opt) ∧
    0 < Search.Pages opt ∧ 0 < Search.StartPage opt ∧
    sort_by_accepted (index context "sort_by") ∧
    prices_accepted (index context "min_price") (index context "max_price") ∧
    instructions_accepted (Search.ParseInstructions opt)).
  { split; [reflexivity|]. split; [by left|].
    split; [reflexivity|]. split; [reflexivity|].
    split; [right; exists "r"; split; [reflexivity|]|].
    { unfold AcceptedSortByParameters. set_solver. }
    split; [|exact I]. right. exists 3, 9.
    split; [reflexivity|]. split; [reflexivity|]. split; lia. }
  split; [exact Hfacts|].
  exact (proj2 (Search_check_passes_iff opt context) Hfacts).
Defined.

Lemma sibling_checks_pass_iff_witness :
  let opt := Pricing.set_defaults (sample.pricing_pages 2 3) in
  (IsUserAgentValid (Pricing.UserAgent opt) = true ∧
   render_accepted (Pricing.Render opt) ∧
   0 < Pricing.Pages opt ∧ 0 < Pricing.StartPage opt ∧
   instructions_accepted (Pricing.ParseInstructions opt)) ∧
  Pricing.checkParameterValidity opt = Ok tt ∧
  (Url.checkParameterValidity Url.zero = Err
     (Errorf "invalid user agent parameter: %v" [VString ""]) ∧
   ¬ (IsUserAgentValid (Url.UserAgent Url.zero) = true ∧
      render_accepted (Url.Render Url.zero) ∧
      instructions_accepted (Url.ParseInstructions Url.zero))).
Proof.
  intros opt.
  destruct (sibling_checks_pass_iff (env := sample.externals))
    as (Hurl & _ & Hpricing).
  assert (Hfacts :
    IsUserAgentValid (Pricing.UserAgent opt) = true ∧
    render_accepted (Pricing.Render opt) ∧
    0 < Pricing.Pages opt ∧ 0 < Pricing.StartPage opt ∧
    instructions_accepted (Pricing.ParseInstructions opt)).
  { split; [reflexivity|]. split; [by left|].
    split; [reflexivity|]. split; [reflexivity|]. exact I. }
  split; [exact Hfacts|]. split; [exact (proj2 (Hpricing opt) Hfacts)|].
  split; [reflexivity|].
  intros Hzero. pose proof (proj2 (Hurl Url.zero) Hzero) as Hok.
  discriminate Hok.
Defined.


Lemma Search_negative_price_rejected_witness :
  let opt :=
    Search.set_defaults
      (sample.search_with [sample.set_key "min_price" (VInt (-1))]) in
  let context :=
    internal.SetDefaultSortBy (Search.apply_modifiers (Search.Context opt)) in
  reaches_price_check opt context ∧
  index context "min_price" = VInt (-1) ∧
  index context "max_price" = VNil ∧
  Search.checkParameterValidity opt context =
    Err (Errorf "min and max prices should be greater than 0" []).
Proof.
  intros opt context.
  assert (Hreaches : reaches_price_check opt context).
  { split; [reflexivity|]. split; [by left|].
    split; [reflexivity|]. split; [reflexivity|].
    right. exists "r". split; [reflexivity|].
    unfold AcceptedSortByParameters. set_solver. }
  assert (Hmin : ∃ a, index context "min_price" = VInt a ∧ a < 0).
  { exists (-1). split; [reflexivity|lia]. }
  split; [exact Hreaches|]. split; [reflexivity|]. split; [reflexivity|].
  exact (Search_negative_price_rejected opt context Hreaches
           (or_introl Hmin)).
Defined.

Lemma first_offence_reported_witness :
  (ValidateUrl "https://example.com" "shopping.google" =
     Err (errors_New "url does not belong to the expected host") ∧
   Url.ScrapeGoogleShoppingUrlCtx context_Background "https://example.com"
     [] sample.world0 =
     (Err (errors_New "url does not belong to the expected host"),
      sample.world0)) ∧
  (IsUserAgentValid
     (internal.SetDefaultUserAgent
        (Search.UserAgent
           (last_or Search.zero [Some (sample.search_as "toaster")])))
     = false ∧
   Search.ScrapeGoogleShoppingSearchCtx context_Background
     "https://example.com" [Some (sample.search_as "toaster")]
     sample.world0 =
     (Err (Errorf "invalid user agent parameter: %v" [VString "toaster"]),
      sample.world0)).
Proof.
  destruct (first_offence_reported context_Background "https://example.com"
              sample.world0) as (Hurl & _ & Hsearch & _).
  assert (Hhost : ValidateUrl "https://example.com" "shopping.google" =
     Err (errors_New "url does not belong to the expected host"))
    by reflexivity.
  assert (Hua : IsUserAgentValid
     (internal.SetDefaultUserAgent
        (Search.UserAgent
           (last_or Search.zero [Some (sample.search_as "toaster")])))
     = false) by reflexivity.
  split.
  - split; [exact Hhost|]. exact (Hurl [] _ Hhost).
  - split; [exact Hua|].
    exact (proj1 (Hsearch [Some (sample.search_as "toaster")]) Hua).
Defined.

Lemma context_setters_witness :
  index (∅ : oxylabs.ContextOption) "hotel_occupancy" = VNil ∧
  index (internal.SetDefaultHotelOccupancy ∅) "hotel_occupancy" = VInt 2 ∧
  index (<["http_method" := VString "post"]> ∅ : oxylabs.ContextOption)
    "http_method" ≠ VNil ∧
  internal.SetDefaultHttpMethod (<["http_method" := VString "post"]> ∅) =
    <["http_method" := VString "post"]> ∅.
Proof.
  destruct (context_setters ∅) as (_ & (Hroom & _) & _).
  destruct (context_setters (<["http_method" := VString "post"]> ∅))
    as (_ & _ & (_ & Hkeep & _)).
  assert (Hnil : index (∅ : oxylabs.ContextOption) "hotel_occupancy" = VNil)
    by reflexivity.
  assert (Hset : index (<["http_method" := VString "post"]> ∅
                          : oxylabs.ContextOption) "http_method" ≠ VNil)
    by discriminate.
  exact (conj Hnil (conj (Hroom Hnil) (conj Hset (Hkeep Hset)))).
Defined.

Lemma Search_payload_keys_witness :
  Search.checkParameterValidity
    (Search.set_defaults (last_or Search.zero []))
    (internal.SetDefaultSortBy
       (Search.apply_modifiers (Search.Context (last_or Search.zero []))))
    = Ok tt ∧
  ∃ payload : gmap string value,
    size (dom payload) = 13%nat ∧
    payload !! "source" = Some (VString "google_shopping_search") ∧
    payload !! "query" = Some (VString "shoes").
Proof.
  assert (Hcheck : Search.checkParameterValidity
    (Search.set_defaults (last_or Search.zero []))
    (internal.SetDefaultSortBy
       (Search.apply_modifiers (Search.Context (last_or Search.zero []))))
    = Ok tt) by reflexivity.
  split; [exact Hcheck|].
  destruct (Search_payload_keys context_Background "shoes" []
              sample.world0 Hcheck)
    as (payload & flag & _ & Hdom & _ & Hsource & Hquery & _).
  exists payload. split; [|split; [exact Hsource|exact Hquery]].
  rewrite Hdom. reflexivity.
Defined.

Lemma Product_payload_keys_witness :
  Product.checkParameterValidity
    (Product.set_defaults (last_or Product.zero [])) = Ok tt ∧
  ∃ payload : gmap string value,
    size (dom payload) = 10%nat ∧
    payload !! "source" = Some (VString "google_shopping_product") ∧
    payload !! "pages" = None.
Proof.
  assert (Hcheck : Product.checkParameterValidity
    (Product.set_defaults (last_or Product.zero [])) = Ok tt)
    by reflexivity.
  split; [exact Hcheck|].
  destruct (Product_payload_keys context_Background "shoes" []
              sample.world0 Hcheck)
    as (payload & flag & _ & Hdom & _ & _ & Hpages & _ & Hsource & _).
  exists payload. split; [|split; [exact Hsource|exact Hpages]].
  rewrite Hdom. reflexivity.
Defined.

Lemma Pricing_payload_keys_witness :
  Pricing.checkParameterValidity
    (Pricing.set_defaults (last_or Pricing.zero [])) = Ok tt ∧
  ∃ payload : gmap string value,
    size (dom payload) = 12%nat ∧
    payload !! "source" = Some (VString "google_shopping_pricing") ∧
    payload !! "context" = None.
Proof.
  assert (Hcheck : Pricing.checkParameterValidity
    (Pricing.set_defaults (last_or Pricing.zero [])) = Ok tt)
    by reflexivity.
  split; [exact Hcheck|].
  destruct (Pricing_payload_keys context_Background "shoes" []
              sample.world0 Hcheck)
    as (payload & flag & _ & Hdom & _ & Hcontext & Hsource & _).
  exists payload. split; [|split; [exact Hsource|exact Hcontext]].
  rewrite Hdom. reflexivity.
Defined.

Lemma Search_request_is_validated_witness :
  sent (Search.ScrapeGoogleShoppingSearchCtx context_Background "shoes" []
          sample.world0).2 ≠ sent sample.world0 ∧
  ∃ (payload : gmap string value) nfpr sort_by min_price max_price,
    payload !! "context" = Some (VList
      [ VMap {[ "key" := VString "nfpr"; "value" := nfpr ]};
        VMap {[ "key" := VString "sort_by"; "value" := VString sort_by ]};
        VMap {[ "key" := VString "min_price"; "value" := min_price ]};
        VMap {[ "key" := VString "max_price"; "value" := max_price ]} ]) ∧
    sort_by ∈ AcceptedSortByParameters ∧
    prices_accepted min_price max_price.
Proof.
  assert (Hsent :
    sent (Search.ScrapeGoogleShoppingSearchCtx context_Background "shoes" []
            sample.world0).2 ≠ sent sample.world0)
    by (vm_compute; discriminate).
  split; [exact Hsent|].
  destruct (Search_request_is_validated context_Background "shoes" []
              sample.world0 Hsent)
    as (payload & body & ua & render & pages & startPage & nfpr & sort_by
        & min_price & max_price & _ & _ & _ & _ & _ & _ & _ & _ & _ & _
        & Hcontext & Hin & Hprices).
  exists payload, nfpr, sort_by, min_price, max_price.
  exact (conj Hcontext (conj Hin Hprices)).
Defined.

End MoreWitnesses.

Section FaultyWitnesses.

Lemma marshal_failure_reported_witness :
  let env := faulty.externals true false true true in
  @Product.checkParameterValidity env
    (@Product.set_defaults env (last_or Product.zero [])) = Ok tt ∧
  @json_Marshal env
    (@Product.payload env "shoes"
       (@Product.set_defaults env (last_or Product.zero []))).1
    = Err (errors_New "json: unsupported value") ∧
  @Product.ScrapeGoogleShoppingProductCtx env context_Background "shoes" []
    (faulty.world0 true false true true) =
    (Err (ErrorfErr "error marshalling payload: %v"
            (errors_New "json: unsupported value")),
     faulty.world0 true false true true).
Proof.
  intros env.
  assert (Hcheck : @Product.checkParameterValidity env
    (@Product.set_defaults env (last_or Product.zero [])) = Ok tt)
    by reflexivity.
  assert (Hmarshal : @json_Marshal env
    (@Product.payload env "shoes"
       (@Product.set_defaults env (last_or Product.zero []))).1
    = Err (errors_New "json: unsupported value")) by reflexivity.
  split; [exact Hcheck|]. split; [exact Hmarshal|].
  exact (proj1 (proj2 (proj2
           (@marshal_failure_reported env context_Background "shoes"
              (errors_New "json: unsupported value")
              (faulty.world0 true false true true))))
           [] Hcheck Hmarshal).
Defined.

Lemma answer_returned_witness :
  let env := faulty.externals true true false true in
  let body :=
    (@Pricing.payload env "shoes"
       (@Pricing.set_defaults env (last_or Pricing.zero []))).1 in
  @Pricing.checkParameterValidity env
    (@Pricing.set_defaults env (last_or Pricing.zero [])) = Ok tt ∧
  @json_Marshal env body = Ok body ∧
  @Pricing.ScrapeGoogleShoppingPricingCtx env context_Background "shoes" []
    (faulty.world0 true true false true) =
    (Err (errors_New "connection refused"),
     {| client := sample.client0;
        sent := [@post env context_Background body] |}).
Proof.
  intros env body.
  assert (Hcheck : @Pricing.checkParameterValidity env
    (@Pricing.set_defaults env (last_or Pricing.zero [])) = Ok tt)
    by reflexivity.
  assert (Hmarshal : @json_Marshal env body = Ok body) by reflexivity.
  split; [exact Hcheck|]. split; [exact Hmarshal|].
  exact (proj2 (proj2 (proj2
           (@answer_returned env context_Background "shoes" body
              (faulty.world0 true true false true))))
           [] Hcheck Hmarshal).
Defined.

Lemma refused_instructions_reported_witness :
  let env := faulty.externals false true true true in
  let opts := [Some (faulty.product_parsing ∅)] in
  @ValidateParseInstructions env ∅ =
    Err (errors_New "unsupported extraction operator") ∧
  @IsUserAgentValid env
    (@internal.SetDefaultUserAgent env
       (Product.UserAgent (last_or Product.zero opts))) = true ∧
  @render_accepted env (Product.Render (last_or Product.zero opts)) ∧
  Product.ParseInstructions (last_or Product.zero opts) = Some ∅ ∧
  @Product.ScrapeGoogleShoppingProductCtx env context_Background "shoes"
    opts (faulty.world0 false true true true) =
    (Err (ErrorfErr "invalid parse instructions: %w"
            (errors_New "unsupported extraction operator")),
     faulty.world0 false true true true).
Proof.
  intros env opts.
  assert (Hcause : @ValidateParseInstructions env ∅ =
    Err (errors_New "unsupported extraction operator")) by reflexivity.
  assert (Hua : @IsUserAgentValid env
    (@internal.SetDefaultUserAgent env
       (Product.UserAgent (last_or Product.zero opts))) = true)
    by reflexivity.
  assert (Hrender : @render_accepted env
            (Product.Render (last_or Product.zero opts))) by (by left).
  assert (Hm : Product.ParseInstructions (last_or Product.zero opts)
               = Some ∅) by reflexivity.
  split; [exact Hcause|]. split; [exact Hua|]. split; [exact Hrender|].
  split; [exact Hm|].
  exact (proj1 (proj2 (proj2
           (@refused_instructions_reported env context_Background "shoes"
              ∅ (errors_New "unsupported extraction operator")
              (faulty.world0 false true true true) Hcause)))
           opts Hua Hrender Hm).
Defined.

End FaultyWitnesses.

(** ** The url payload, and a lone price bound *)

Section UrlPayload.
Context {env : Externals}.

(** X18. In the payload a url call submits, [user_agent_type] is the caller's
    user agent, or the default when the caller left it empty; [render],
    [callback_url], [geo_location] and [parse] are the caller's values as
    they are; [parsing_instructions] holds the caller's instruction map when
    there is one. *)
Theorem Url_payload_values ctx url opts (w : world) :
  let given := last_or Url.zero opts in
  ValidateUrl url "shopping.google" = Ok tt →
  Url.checkParameterValidity (Url.set_defaults given) = Ok tt →
  ∃ payload customParserFlag,
    Url.ScrapeGoogleShoppingUrlCtx ctx url opts w =
      submit ctx payload (Url.Parse given) customParserFlag w ∧
    payload !! "user_agent_type" =
      Some (VString (if bool_decide (Url.UserAgent given = "")
                     then UA_DESKTOP else Url.UserAgent given)) ∧
    payload !! "render" = Some (VString (Url.Render given)) ∧
    payload !! "callback_url" = Some (VString (Url.CallbackUrl given)) ∧
    payload !! "geo_location" = Some (VString (Url.GeoLocation given)) ∧
    payload !! "parse" = Some (VBool (Url.Parse given)) ∧
    payload !! "parsing_instructions" = VMap <$> Url.ParseInstructions given.
Proof.
  intros given Hurl Hcheck.
  exists (Url.payload url (Url.set_defaults given)).1,
    (Url.payload url (Url.set_defaults given)).2.
  split.
  { rewrite Url_run. fold given. by rewrite Hurl, Hcheck. }
  unfold Url.payload. simpl.
  split; [read_payload|]. split; [read_payload|]. split; [read_payload|].
  split; [read_payload|]. split; [read_payload|].
  by apply add_parsing_instructions_entry.
Qed.

End UrlPayload.

Section LastWitnesses.
#[local] Existing Instance sample.externals.

Lemma Url_payload_values_witness :
  ValidateUrl "https://shopping.google.com/product/1" "shopping.google"
    = Ok tt ∧
  Url.checkParameterValidity (Url.set_defaults (last_or Url.zero []))
    = Ok tt ∧
  ∃ payload : gmap string value,
    payload !! "user_agent_type" = Some (VString "desktop") ∧
    payload !! "parsing_instructions" = None.
Proof.
  assert (Hurl : ValidateUrl "https://shopping.google.com/product/1"
                   "shopping.google" = Ok tt) by reflexivity.
  assert (Hcheck : Url.checkParameterValidity
                     (Url.set_defaults (last_or Url.zero [])) = Ok tt)
    by reflexivity.
  split; [exact Hurl|]. split; [exact Hcheck|].
  destruct (Url_payload_values context_Background
              "https://shopping.google.com/product/1" [] sample.world0
              Hurl Hcheck)
    as (payload & flag & _ & Hua & _ & _ & _ & _ & Hinstructions).
  exists payload. exact (conj Hua Hinstructions).
Defined.

Lemma Search_check_partial_price_witness :
  let opt :=
    Search.set_defaults
      (sample.search_with [sample.set_key "max_price" (VInt 7)]) in
  let context :=
    internal.SetDefaultSortBy (Search.apply_modifiers (Search.Context opt)) in
  IsUserAgentValid (Search.UserAgent opt) = true ∧
  0 < Search.Pages opt ∧ 0 < Search.StartPage opt ∧
  index context "sort_by" = VString "r" ∧
  index context "min_price" = VNil ∧
  index context "max_price" ≠ VNil ∧
  Search.checkParameterValidity opt context =
    Panic (InterfaceConversion VNil "int").
Proof.
  intros opt context.
  assert (Hua : IsUserAgentValid (Search.UserAgent opt) = true)
    by reflexivity.
  assert (Hrender : bool_decide (Search.Render opt ≠ "")
                    && negb (IsRenderValid (Search.Render opt)) = false)
    by reflexivity.
  assert (Hpages : 0 < Search.Pages opt) by reflexivity.
  assert (Hstart : 0 < Search.StartPage opt) by reflexivity.
  assert (Hsort : ∃ s, index context "sort_by" = VString s ∧
                       s ∈ AcceptedSortByParameters).
  { exists "r". split; [reflexivity|].
    unfold AcceptedSortByParameters. set_solver. }
  assert (Hmin : index context "min_price" = VNil) by reflexivity.
  assert (Hmax : index context "max_price" ≠ VNil) by discriminate.
  split; [exact Hua|]. split; [exact Hpages|]. split; [exact Hstart|].
  split; [reflexivity|]. split; [exact Hmin|]. split; [exact Hmax|].
  exact (Search_check_partial_price opt context Hua Hrender Hpages Hstart
           Hsort (or_intror (conj Hmin Hmax))).
Defined.

End LastWitnesses.
